(** * Order-Book-Aggregator: a shallow embedding of [api.py]

    The development follows the layout of the program:

    - [Py]           the fragment of Python's dynamic values and builtins the
                     program relies on (truthiness, [dict.get], [len],
                     slicing, subscripts, [float], [min]), and the stable
                     sort behind [list.sort];
    - [RateLimiter]  the class of the same name;
    - [OrderBook]    the aggregator object with its two fetchers, the merger
                     [build_internal_order_book] and the execution simulator
                     [calculate_execution_prices];
    - the worker loops of the [__main__] block;
    - the properties of the specification, one theorem each.

    Modelling choices.

    - Python floats are exact rationals ([Q]); equality of computed numbers
      is [Qeq] ([==]).  Rounding, infinities and NaN are outside the model.
    - [time.time()] and the HTTP exchange are inputs of the operation that
      reads them; the requests an operation sends are returned as a log.
    - An exception is the [Raise] branch of [result]; the object state an
      operation leaves behind is returned next to it, since Python keeps
      the mutations made before the exception.
    - The locks only delimit atomic sections; operations are modelled as
      running one at a time, and console output is left out. *)

From Stdlib Require Import List ZArith QArith Qminmax Lqa Lia String Ascii Bool.
From Stdlib Require Import Sorted Permutation.
Import ListNotations.

Set Implicit Arguments.
Set Warnings "-register-all".

(* ================================================================= *)
(** ** Python values and builtins *)

Module Py.

(** The exceptions that can arise in [api.py]. *)
Inductive exn : Type :=
| TypeError
| AttributeError
| KeyError
| IndexError
| ValueError
| RequestException   (* requests.get: timeout, connection failure *)
| HTTPError          (* response.raise_for_status *)
| JSONDecodeError.   (* response.json *)

Inductive result (A : Type) : Type :=
| Ok (a : A)
| Raise (e : exn).
Arguments Ok {A} a.
Arguments Raise {A} e.

Definition bind {A B : Type} (c : result A) (k : A -> result B) : result B :=
  match c with
  | Ok a => k a
  | Raise e => Raise e
  end.

(** What [response.json()] can return. *)
Inductive value : Type :=
| VNone
| VBool (b : bool)
| VNum (q : Q)
| VStr (s : string)
| VList (items : list value)
| VDict (entries : list (string * value)).

(** [bool(v)], as used by [if v] and by [a if v else b]. *)
Definition truthy (v : value) : bool :=
  match v with
  | VNone => false
  | VBool b => b
  | VNum q => negb (Qeq_bool q 0)
  | VStr s => negb (String.eqb s EmptyString)
  | VList items => match items with [] => false | _ :: _ => true end
  | VDict entries => match entries with [] => false | _ :: _ => true end
  end.

Fixpoint lookup (key : string) (entries : list (string * value)) : option value :=
  match entries with
  | [] => None
  | (k, v) :: rest => if String.eqb k key then Some v else lookup key rest
  end.

(** [v.get(key)]: only a dict has the method; a missing key gives [None]. *)
Definition get (v : value) (key : string) : result value :=
  match v with
  | VDict entries =>
      match lookup key entries with
      | Some x => Ok x
      | None => Ok VNone
      end
  | _ => Raise AttributeError
  end.

(** [len(v)]. *)
Definition len (v : value) : result Z :=
  match v with
  | VStr s => Ok (Z.of_nat (String.length s))
  | VList items => Ok (Z.of_nat (List.length items))
  | VDict entries => Ok (Z.of_nat (List.length entries))
  | _ => Raise TypeError
  end.

(** The number of items a slice [[:stop]] keeps of a sequence of [n]
    items: a negative [stop] counts from the end. *)
Definition slice_stop (n : nat) (stop : Z) : nat :=
  if (stop <? 0)%Z
  then Z.to_nat (Z.max 0 (Z.of_nat n + stop))
  else Z.to_nat (Z.min stop (Z.of_nat n)).

(** [v[:stop]].  A dict cannot be sliced; which exception says so
    depends on the interpreter's version. *)
Definition slice_to (v : value) (stop : Z) : result value :=
  match v with
  | VStr s => Ok (VStr (substring 0 (slice_stop (String.length s) stop) s))
  | VList items => Ok (VList (firstn (slice_stop (List.length items) stop) items))
  | VDict _ => Raise KeyError
  | _ => Raise TypeError
  end.

Fixpoint chars (s : string) : list value :=
  match s with
  | EmptyString => []
  | String c rest => VStr (String c EmptyString) :: chars rest
  end.

(** The items [for x in v] runs through. *)
Definition iter (v : value) : result (list value) :=
  match v with
  | VStr s => Ok (chars s)
  | VList items => Ok items
  | VDict entries => Ok (map (fun kv => VStr (fst kv)) entries)
  | _ => Raise TypeError
  end.

Definition nth_item (items : list value) (i : Z) : result value :=
  let n := Z.of_nat (List.length items) in
  let j := if (i <? 0)%Z then (n + i)%Z else i in
  if ((0 <=? j) && (j <? n))%Z
  then match nth_error items (Z.to_nat j) with
       | Some x => Ok x
       | None => Raise IndexError
       end
  else Raise IndexError.

(** [v[i]] for an integer [i]. *)
Definition index (v : value) (i : Z) : result value :=
  match v with
  | VStr s => nth_item (chars s) i
  | VList items => nth_item items i
  | VDict _ => Raise KeyError     (* the keys of a JSON object are strings *)
  | _ => Raise TypeError
  end.

(** [v[key]] for a string [key]. *)
Definition item (v : value) (key : string) : result value :=
  match v with
  | VDict entries =>
      match lookup key entries with
      | Some x => Ok x
      | None => Raise KeyError
      end
  | _ => Raise TypeError
  end.

(** [min(a, b)] on numbers: [b] when [b < a], otherwise [a]. *)
Definition min (a b : Q) : Q :=
  if Qle_bool a b then a else b.

(** [float(v)].  How the interpreter reads a string as a number is not
    part of the program: [str_to_float] stands for it, and raises
    [ValueError] on the strings it rejects. *)
Section Float.
Variable str_to_float : string -> result Q.

Definition float (v : value) : result Q :=
  match v with
  | VNum q => Ok q
  | VBool b => Ok (if b then 1 else 0)
  | VStr s => str_to_float s
  | _ => Raise TypeError
  end.
End Float.

End Py.

Import Py.

Declare Scope py_scope.
Delimit Scope py_scope with py.
Notation "x <- c ;; k" := (Py.bind c (fun x => k))
(at level 61, c at next level, right associativity) : py_scope.
Open Scope py_scope.

(** [list.sort(key=...)] is a stable sort; [before x y] says that [x] may
    stand before [y] ([key x <= key y], or [>=] under [reverse=True]).
    An element is put in front of the first one it may stand before, so
    elements with equal keys keep their order. *)
Section Sort.
Variable A : Type.
Variable before : A -> A -> bool.

Fixpoint insert (x : A) (l : list A) : list A :=
  match l with
  | [] => [x]
  | y :: rest => if before x y then x :: y :: rest else y :: insert x rest
  end.

Definition sort (l : list A) : list A := fold_right insert [] l.
End Sort.

(* ================================================================= *)
(** ** class RateLimiter *)

Module RateLimiter.

Record t : Type := mk {
  min_interval : Q;
  last_called : Q
}.

(** [__init__(self, min_interval_seconds)] *)
Definition init (min_interval_seconds : Q) : t :=
  {| min_interval := min_interval_seconds; last_called := 0 |}.

(** [allow(self)]; [now] is the value [time.time()] returns inside the
    critical section.  The result is the returned boolean and the
    limiter after the call. *)
Definition allow (now : Q) (self : t) : bool * t :=
  if Qle_bool (min_interval self) (now - last_called self)
  then (true, {| min_interval := min_interval self; last_called := now |})
  else (false, self).

(** A sequence of [allow()] calls on one limiter, at the given clock
    readings: the booleans returned, in call order, and the final state. *)
Fixpoint allow_all (clock : list Q) (self : t) : list bool * t :=
  match clock with
  | [] => ([], self)
  | now :: later =>
      let (granted, self1) := allow now self in
      let (rest, self2) := allow_all later self1 in
      (granted :: rest, self2)
  end.

End RateLimiter.

(* ================================================================= *)
(** ** class OrderBook *)

Module OrderBook.

Inductive venue : Type := Coinbase | Gemini.

(** A level of the internal book: the dict
    [{"price": ..., "size": ..., "exchange": ...}]. *)
Record level : Type := mk_level {
  price : Q;
  size : Q;
  exchange : venue
}.

(** The internal book: the dict [{"bids": ..., "asks": ...}]. *)
Record book : Type := mk_book {
  bids : list level;
  asks : list level
}.

Record t : Type := mk {
  coinbase_order_book : value;            (* [None] until a fetch succeeds *)
  gemini_order_book : value;
  internal_order_book : option book;      (* [None] until the first build *)
  depth : option Z;                       (* [None] for an unset depth *)
  coinbase_limiter : RateLimiter.t;
  gemini_limiter : RateLimiter.t
}.

(** [__init__(self, depth)] *)
Definition init (depth : option Z) : t :=
  {| coinbase_order_book := VNone;
     gemini_order_book := VNone;
     internal_order_book := None;
     depth := depth;
     coinbase_limiter := RateLimiter.init 2;
     gemini_limiter := RateLimiter.init 2 |}.

Definition set_coinbase_order_book (data : value) (self : t) : t :=
  {| coinbase_order_book := data;
     gemini_order_book := gemini_order_book self;
     internal_order_book := internal_order_book self;
     depth := depth self;
     coinbase_limiter := coinbase_limiter self;
     gemini_limiter := gemini_limiter self |}.

Definition set_gemini_order_book (data : value) (self : t) : t :=
  {| coinbase_order_book := coinbase_order_book self;
     gemini_order_book := data;
     internal_order_book := internal_order_book self;
     depth := depth self;
     coinbase_limiter := coinbase_limiter self;
     gemini_limiter := gemini_limiter self |}.

Definition set_internal_order_book (new_book : book) (self : t) : t :=
  {| coinbase_order_book := coinbase_order_book self;
     gemini_order_book := gemini_order_book self;
     internal_order_book := Some new_book;
     depth := depth self;
     coinbase_limiter := coinbase_limiter self;
     gemini_limiter := gemini_limiter self |}.

Definition set_coinbase_limiter (limiter : RateLimiter.t) (self : t) : t :=
  {| coinbase_order_book := coinbase_order_book self;
     gemini_order_book := gemini_order_book self;
     internal_order_book := internal_order_book self;
     depth := depth self;
     coinbase_limiter := limiter;
     gemini_limiter := gemini_limiter self |}.

Definition set_gemini_limiter (limiter : RateLimiter.t) (self : t) : t :=
  {| coinbase_order_book := coinbase_order_book self;
     gemini_order_book := gemini_order_book self;
     internal_order_book := internal_order_book self;
     depth := depth self;
     coinbase_limiter := coinbase_limiter self;
     gemini_limiter := limiter |}.

(* ----------------------------------------------------------------- *)
(** *** The fetchers *)

(** [requests.get(url, params=..., timeout=...)] *)
Record request : Type := mk_request {
  url : string;
  params : list (string * Z);
  timeout : Z
}.

(** The response object: its status code, and what [response.json()]
    does on its body. *)
Record response : Type := mk_response {
  status_code : Z;
  json : result value
}.

(** The network, as the program sees it: [requests.get] returns a
    response or raises (timeout, connection failure). *)
Definition network : Type := request -> result response.

(** [response.raise_for_status()] raises on the 4xx and 5xx codes. *)
Definition raise_for_status (r : response) : result unit :=
  if ((400 <=? status_code r) && (status_code r <? 600))%Z
  then Raise HTTPError
  else Ok tt.

(** One call of a fetcher: the object afterwards, the requests sent
    during the call, and how the call ended. *)
Record outcome : Type := mk_outcome {
  after : t;
  sent : list request;
  ended : result unit
}.

(** The request of lines 37-39. *)
Definition coinbase_request : request :=
  {| url := "https://api.exchange.coinbase.com/products/BTC-USD/book";
     params := [("level"%string, 2%Z)];
     timeout := 10 |}.

(** The request of lines 48-49. *)
Definition gemini_request : request :=
  {| url := "https://api.gemini.com/v1/book/BTCUSD";
     params := [];
     timeout := 10 |}.

Definition fetch_coinbase (now : Q) (net : network) (self : t) : outcome :=
  let (allowed, limiter) := RateLimiter.allow now (coinbase_limiter self) in
  let self := set_coinbase_limiter limiter self in
  if negb allowed then
    {| after := self; sent := []; ended := Ok tt |}
  else
    let req := coinbase_request in
    match (response <- net req ;;
           _ <- raise_for_status response ;;
           json response) with
    | Raise e => {| after := self; sent := [req]; ended := Raise e |}
    | Ok data =>
        {| after := set_coinbase_order_book data self;
           sent := [req];
           ended := Ok tt |}
    end.

Definition fetch_gemini (now : Q) (net : network) (self : t) : outcome :=
  let (allowed, limiter) := RateLimiter.allow now (gemini_limiter self) in
  let self := set_gemini_limiter limiter self in
  if negb allowed then
    {| after := self; sent := []; ended := Ok tt |}
  else
    let req := gemini_request in
    match (response <- net req ;;
           _ <- raise_for_status response ;;
           json response) with
    | Raise e => {| after := self; sent := [req]; ended := Raise e |}
    | Ok data =>
        {| after := set_gemini_order_book data self;
           sent := [req];
           ended := Ok tt |}
    end.

(* ----------------------------------------------------------------- *)
(** *** The merger *)

Section Build.
Variable str_to_float : string -> result Q.

(** The body of the loop of lines 74-76 (and 82-84). *)
Definition coinbase_level (lvl : value) : result level :=
  p <- index lvl 0 ;;
  price <- float str_to_float p ;;
  s <- index lvl 1 ;;
  size <- float str_to_float s ;;
  Ok {| price := price; size := size; exchange := Coinbase |}.

(** The body of the loop of lines 78-80 (and 86-88). *)
Definition gemini_level (lvl : value) : result level :=
  p <- item lvl "price" ;;
  price <- float str_to_float p ;;
  s <- item lvl "amount" ;;
  size <- float str_to_float s ;;
  Ok {| price := price; size := size; exchange := Gemini |}.

(** [for level in levels: side.append(<body>)] *)
Fixpoint append_levels (body : value -> result level) (levels : list value)
    (side : list level) : result (list level) :=
  match levels with
  | [] => Ok side
  | lvl :: rest =>
      entry <- body lvl ;;
      append_levels body rest (side ++ [entry])
  end.

(** [for level in raw[: stop]: side.append(<body>)] *)
Definition for_levels (body : value -> result level) (raw : value) (stop : Z)
    (side : list level) : result (list level) :=
  prefix <- slice_to raw stop ;;
  levels <- iter prefix ;;
  append_levels body levels side.

(** [book.get(name) if book else []], lines 62-65. *)
Definition side_of (venue_book : value) (name : string) : result value :=
  if truthy venue_book then get venue_book name else Ok (VList []).

(** [min(self.depth, len(raw)) if self.depth else len(raw)], lines 66-69:
    the condition is the truth value of [self.depth], false for [None]
    and for [0]. *)
Definition depth_of (depth : option Z) (raw : value) : result Z :=
  match depth with
  | Some d =>
      if (d =? 0)%Z then len raw
      else (n <- len raw ;; Ok (Z.min d n))
  | None => len raw
  end.

Definition build_internal_order_book (self : t) : result t :=
  let coinbase_book := coinbase_order_book self in
  let gemini_book := gemini_order_book self in
  coinbase_bids <- side_of coinbase_book "bids" ;;
  gemini_bids <- side_of gemini_book "bids" ;;
  coinbase_asks <- side_of coinbase_book "asks" ;;
  gemini_asks <- side_of gemini_book "asks" ;;
  coinbase_bids_depth <- depth_of (depth self) coinbase_bids ;;
  gemini_bids_depth <- depth_of (depth self) gemini_bids ;;
  coinbase_asks_depth <- depth_of (depth self) coinbase_asks ;;
  gemini_asks_depth <- depth_of (depth self) gemini_asks ;;
  let bids := [] in
  let asks := [] in
  bids <- for_levels coinbase_level coinbase_bids coinbase_bids_depth bids ;;
  bids <- for_levels gemini_level gemini_bids gemini_bids_depth bids ;;
  asks <- for_levels coinbase_level coinbase_asks coinbase_asks_depth asks ;;
  asks <- for_levels gemini_level gemini_asks gemini_asks_depth asks ;;
  let new_internal_book := {| bids := bids; asks := asks |} in
  Ok (set_internal_order_book new_internal_book self).

End Build.

(* ----------------------------------------------------------------- *)
(** *** The execution simulator *)

(** A fill: the tuple [(level["exchange"], size_take, level["price"], cost)]. *)
Definition fill : Type := (venue * Q * Q * Q)%type.

(** The variables of one of the two loops of
    [calculate_execution_prices]: [remaining_buy], [cost_buy],
    [buy_fills], or [remaining_sell], [revenue_sell], [sell_fills]. *)
Record tally : Type := mk_tally {
  remaining : Q;
  total : Q;
  fills : list fill
}.

(** The loop of lines 147-154; the loop of lines 160-167 is the same
    text over [bids] and the sell variables. *)
Fixpoint take_levels (levels : list level) (acc : tally) : tally :=
  match levels with
  | [] => acc
  | level :: rest =>
      if Qle_bool (remaining acc) 0 then acc        (* break *)
      else
        let size_take := Py.min (size level) (remaining acc) in
        let cost := size_take * price level in
        take_levels rest
          {| remaining := remaining acc - size_take;
             total := total acc + cost;
             fills := fills acc ++ [(exchange level, size_take, price level, cost)] |}
  end.

(** [asks.sort(key=lambda x: x["price"])] *)
Definition sort_asks (asks : list level) : list level :=
  sort (fun x y => Qle_bool (price x) (price y)) asks.

(** [bids.sort(key=lambda x: x["price"], reverse=True)] *)
Definition sort_bids (bids : list level) : list level :=
  sort (fun x y => Qle_bool (price y) (price x)) bids.

(** The method prints its figures and returns nothing; the model returns
    the variables as they stand at line 169. *)
Record execution : Type := mk_execution {
  buy : tally;
  sell : tally
}.

(** [calculate_execution_prices(self, quantity_btc=10.0)]; [None] is the
    early return of line 136. *)
Definition calculate_execution_prices (quantity_btc : Q) (self : t) : option execution :=
  match internal_order_book self with
  | None => None
  | Some book =>
      let asks := sort_asks (asks book) in
      let bids := sort_bids (bids book) in
      let buy :=
        take_levels asks {| remaining := quantity_btc; total := 0; fills := [] |} in
      let sell :=
        take_levels bids {| remaining := quantity_btc; total := 0; fills := [] |} in
      Some {| buy := buy; sell := sell |}
  end.

End OrderBook.

(* ================================================================= *)
(** ** The worker loops *)

(** What a worker thread has come to after some iterations. *)
Inductive thread : Type :=
| Running (ob : OrderBook.t)
| Terminated (e : exn) (ob : OrderBook.t).

(** The environment of one iteration of a fetch worker: the clock
    reading and the network the fetch meets. *)
Definition tick : Type := (Q * OrderBook.network)%type.

(** [while True: ob.fetch_coinbase(); time.sleep(2)], run over the
    iterations listed in [ticks].  An exception that leaves
    [fetch_coinbase] leaves the loop and ends the thread. *)
Fixpoint coinbase_worker (ticks : list tick) (ob : OrderBook.t) : thread :=
  match ticks with
  | [] => Running ob
  | (now, net) :: later =>
      let o := OrderBook.fetch_coinbase now net ob in
      match OrderBook.ended o with
      | Ok _ => coinbase_worker later (OrderBook.after o)
      | Raise e => Terminated e (OrderBook.after o)
      end
  end.

(** [while True: ob.fetch_gemini(); time.sleep(2)] *)
Fixpoint gemini_worker (ticks : list tick) (ob : OrderBook.t) : thread :=
  match ticks with
  | [] => Running ob
  | (now, net) :: later =>
      let o := OrderBook.fetch_gemini now net ob in
      match OrderBook.ended o with
      | Ok _ => gemini_worker later (OrderBook.after o)
      | Raise e => Terminated e (OrderBook.after o)
      end
  end.

(* ================================================================= *)
(** ** Sample data *)

Module Sample.

Definition digit (c : ascii) : option Z :=
  let n := nat_of_ascii c in
  if (48 <=? n)%nat && (n <=? 57)%nat then Some (Z.of_nat (n - 48)) else None.

(** Reads the digits of [s], with at most one point among them, into
    [mantissa / scale]. *)
Fixpoint scan (s : string) (point digits : bool) (mantissa : Z) (scale : positive)
    : result Q :=
  match s with
  | EmptyString => if digits then Ok (mantissa # scale) else Raise ValueError
  | String c rest =>
      if Ascii.eqb c "."%char then
        if point then Raise ValueError else scan rest true digits mantissa scale
      else
        match digit c with
        | Some d =>
            scan rest point true (10 * mantissa + d)%Z
              (if point then (10 * scale)%positive else scale)
        | None => Raise ValueError
        end
  end.

(** A reader of plain decimal numerals, [-12.5] and the like: one
    possible [str_to_float], enough for the venues' price strings. *)
Definition decimal (s : string) : result Q :=
  match s with
  | String "-"%char rest => q <- scan rest false false 0 1 ;; Ok (- q)
  | _ => scan s false false 0 1
  end.

(** A network that answers every request with status 200 and [data]. *)
Definition serving (data : value) : OrderBook.network :=
  fun _ => Ok {| OrderBook.status_code := 200; OrderBook.json := Ok data |}.

(** A network on which every request times out. *)
Definition down : OrderBook.network :=
  fun _ => Raise RequestException.

(** The scenario of the specification: venue A asks [[100,1],[101,2]],
    venue B asks [{price:"100.5",amount:"1.5"}]; bids are added so that
    the sell side has levels too. *)
Definition coinbase_data : value :=
  VDict [("bids"%string,
          VList [VList [VNum 99; VNum 1]; VList [VNum 98; VNum 2]]);
         ("asks"%string,
          VList [VList [VNum 100; VNum 1]; VList [VNum 101; VNum 2]])].

Definition gemini_data : value :=
  VDict [("bids"%string,
          VList [VDict [("price"%string, VStr "99.5");
                        ("amount"%string, VStr "0.5")]]);
         ("asks"%string,
          VList [VDict [("price"%string, VStr "100.5");
                        ("amount"%string, VStr "1.5")]])].

(** An aggregator that has fetched both venues and not built yet. *)
Definition fetched (depth : option Z) : OrderBook.t :=
  OrderBook.set_gemini_order_book gemini_data
    (OrderBook.set_coinbase_order_book coinbase_data (OrderBook.init depth)).

(** The internal book of the scenario. *)
Definition book : OrderBook.book :=
  {| OrderBook.bids :=
       [ {| OrderBook.price := 99; OrderBook.size := 1;
            OrderBook.exchange := OrderBook.Coinbase |};
         {| OrderBook.price := 98; OrderBook.size := 2;
            OrderBook.exchange := OrderBook.Coinbase |};
         {| OrderBook.price := 99.5; OrderBook.size := 0.5;
            OrderBook.exchange := OrderBook.Gemini |} ];
     OrderBook.asks :=
       [ {| OrderBook.price := 100; OrderBook.size := 1;
            OrderBook.exchange := OrderBook.Coinbase |};
         {| OrderBook.price := 101; OrderBook.size := 2;
            OrderBook.exchange := OrderBook.Coinbase |};
         {| OrderBook.price := 100.5; OrderBook.size := 1.5;
            OrderBook.exchange := OrderBook.Gemini |} ] |}.

(** The aggregator after the build. *)
Definition merged (depth : option Z) : OrderBook.t :=
  OrderBook.set_internal_order_book book (fetched depth).

End Sample.

(* ================================================================= *)
(** * Vocabulary of the properties *)

(** ** The fetchers, by venue *)

Module Fetcher.
Import OrderBook.

Definition limiter (v : venue) (ob : t) : RateLimiter.t :=
  match v with
  | Coinbase => coinbase_limiter ob
  | Gemini => gemini_limiter ob
  end.

(** The stored snapshot of a venue. *)
Definition snapshot (v : venue) (ob : t) : value :=
  match v with
  | Coinbase => coinbase_order_book ob
  | Gemini => gemini_order_book ob
  end.

Definition request_of (v : venue) : request :=
  match v with
  | Coinbase => coinbase_request
  | Gemini => gemini_request
  end.

Definition fetch (v : venue) : Q -> network -> t -> outcome :=
  match v with
  | Coinbase => fetch_coinbase
  | Gemini => fetch_gemini
  end.

Definition worker (v : venue) : list tick -> t -> thread :=
  match v with
  | Coinbase => coinbase_worker
  | Gemini => gemini_worker
  end.

(** The three ways a granted fetch can fail: the request itself fails,
    the status check fails, or the payload cannot be parsed. *)
Inductive fails (net : network) (req : request) (e : exn) : Prop :=
| request_fails :
    net req = Raise e -> fails net req e
| status_check_fails (r : response) :
    net req = Ok r -> raise_for_status r = Raise e -> fails net req e
| parsing_fails (r : response) :
    net req = Ok r -> raise_for_status r = Ok tt -> json r = Raise e ->
    fails net req e.

End Fetcher.

(** ** The merged book, by venue and side *)

Module Merged.
Import OrderBook.

Inductive side : Type := Bids | Asks.

Definition name (s : side) : string :=
  match s with
  | Bids => "bids"
  | Asks => "asks"
  end.

Definition levels (s : side) (b : book) : list level :=
  match s with
  | Bids => bids b
  | Asks => asks b
  end.

Definition venue_eqb (v w : venue) : bool :=
  match v, w with
  | Coinbase, Coinbase | Gemini, Gemini => true
  | _, _ => false
  end.

(** The levels of a merged side that come from venue [v], in order. *)
Definition from (v : venue) (side : list level) : list level :=
  filter (fun l => venue_eqb (exchange l) v) side.

(** The levels a venue returned for a side, in the order it returned
    them; none when the snapshot is absent or has no such sequence. *)
Definition returned (venue_book : value) (s : side) : list value :=
  match side_of venue_book (name s) with
  | Ok raw =>
      match iter raw with
      | Ok lvls => lvls
      | Raise _ => []
      end
  | Raise _ => []
  end.

(** How a venue's level is read. *)
Definition body (str_to_float : string -> result Q) (v : venue)
    : value -> result level :=
  match v with
  | Coinbase => coinbase_level str_to_float
  | Gemini => gemini_level str_to_float
  end.

(** The levels read one by one, in order; the first that cannot be read
    raises. *)
Fixpoint read (body : value -> result level) (lvls : list value)
    : result (list level) :=
  match lvls with
  | [] => Ok []
  | lvl :: rest =>
      entry <- body lvl ;;
      entries <- read body rest ;;
      Ok (entry :: entries)
  end.

(** The internal book a build leaves, or the exception it raises. *)
Definition built (r : result t) : result (option book) :=
  ob <- r ;; Ok (internal_order_book ob).

Definition with_depth (d : option Z) (self : t) : t :=
  {| coinbase_order_book := coinbase_order_book self;
     gemini_order_book := gemini_order_book self;
     internal_order_book := internal_order_book self;
     depth := d;
     coinbase_limiter := coinbase_limiter self;
     gemini_limiter := gemini_limiter self |}.

(** The number of levels the merger keeps of the [n] levels a venue
    returned for a side: the slice [[: stop]] of lines 74-86 with the
    [stop] of lines 66-69. *)
Definition kept (depth : option Z) (n : nat) : nat :=
  slice_stop n
    (match depth with
     | Some d => if (d =? 0)%Z then Z.of_nat n else Z.min d (Z.of_nat n)
     | None => Z.of_nat n
     end).

Definition other (v : venue) : venue :=
  match v with
  | Coinbase => Gemini
  | Gemini => Coinbase
  end.

Definition set_snapshot (v : venue) (data : value) (self : t) : t :=
  match v with
  | Coinbase => set_coinbase_order_book data self
  | Gemini => set_gemini_order_book data self
  end.

(** The snapshot of a venue that returned an empty book. *)
Definition empty_snapshot : value :=
  VDict [("bids"%string, VList []); ("asks"%string, VList [])].

(** The merger over one venue alone: the steps of
    [build_internal_order_book] that concern venue [v]. *)
Definition alone (str_to_float : string -> result Q) (v : venue)
    (depth : option Z) (venue_book : value) : result (option book) :=
  venue_bids <- side_of venue_book "bids" ;;
  venue_asks <- side_of venue_book "asks" ;;
  venue_bids_depth <- depth_of depth venue_bids ;;
  venue_asks_depth <- depth_of depth venue_asks ;;
  bids <- for_levels (body str_to_float v) venue_bids venue_bids_depth [] ;;
  asks <- for_levels (body str_to_float v) venue_asks venue_asks_depth [] ;;
  Ok (Some {| bids := bids; asks := asks |}).

End Merged.

(** ** The execution simulation *)

Module Execution.
Import OrderBook.


Definition fill_venue (f : fill) : venue :=
  match f with (v, _, _, _) => v end.

Definition fill_size (f : fill) : Q :=
  match f with (_, size_take, _, _) => size_take end.

Definition fill_price (f : fill) : Q :=
  match f with (_, _, p, _) => p end.

Definition fill_value (f : fill) : Q :=
  match f with (_, _, _, cost) => cost end.

(** The quantity filled: the sizes of the fills, added up. *)
Definition filled (fs : list fill) : Q :=
  fold_right (fun f acc => fill_size f + acc) 0 fs.

(** A fill is taken from level [l]: same venue, same price, and the value
    is size times price. *)
Definition taken_from (f : fill) (l : level) : Prop :=
  fill_venue f = exchange l /\ fill_price f = price l /\
  fill_value f = fill_size f * price l.



Definition ascending (a b : level) : Prop := price a <= price b.
Definition descending (a b : level) : Prop := price b <= price a.

End Execution.

(* ================================================================= *)
(** * The display and the printer worker *)

(** [range(lo, hi)] *)
Definition range (lo hi : Z) : list Z :=
  map (fun k => (lo + Z.of_nat k)%Z) (seq 0 (Z.to_nat (hi - lo))).

Module Console.
Import OrderBook.

(** A line [print_order_books] prints, before the numbers are formatted. *)
Inductive line : Type :=
| NotAvailable                              (* "Internal order book is not yet available." *)
| BidsHeader                                (* "Bids:" *)
| AsksHeader                                (* "\nAsks:" *)
| LevelRow (i : Z) (cb gm : option level).  (* "Level {i} - {cb_text} | {gm_text}" *)

(** [side[i - 1] if len(side) >= i else None]; the loops run it for
    [i >= 1] only. *)
Definition entry (side : list level) (i : Z) : option level :=
  if (i <=? Z.of_nat (List.length side))%Z
  then nth_error side (Z.to_nat (i - 1))
  else None.

(** The body of the loops of lines 115-120 and 123-128. *)
Definition row (coinbase_side gemini_side : list level) (i : Z) : line :=
  let cb := entry coinbase_side i in
  let gm := entry gemini_side i in
  LevelRow i cb gm.

(** [print_order_books(self)]: the lines printed, and how the call ends.
    [self.depth + 1] raises [TypeError] for an unset depth, after the
    first header has been printed. *)
Definition print_order_books (self : t) : list line * result unit :=
  match internal_order_book self with
  | None => ([NotAvailable], Ok tt)
  | Some book =>
      let coinbase_bids := Merged.from Coinbase (bids book) in
      let gemini_bids := Merged.from Gemini (bids book) in
      let coinbase_asks := Merged.from Coinbase (asks book) in
      let gemini_asks := Merged.from Gemini (asks book) in
      match depth self with
      | None => ([BidsHeader], Raise TypeError)
      | Some d =>
          ([BidsHeader]
             ++ map (row coinbase_bids gemini_bids) (range 1 (d + 1))
             ++ [AsksHeader]
             ++ map (row coinbase_asks gemini_asks) (range 1 (d + 1)),
           Ok tt)
      end
  end.

(** The levels of venue [v] that appear on the printed lines, in the
    order they are printed. *)
Definition shown (v : venue) (lines : list line) : list level :=
  flat_map (fun l =>
              match l with
              | LevelRow _ cb gm =>
                  match (match v with Coinbase => cb | Gemini => gm end) with
                  | Some x => [x]
                  | None => []
                  end
              | _ => []
              end) lines.

End Console.

(** [while True: time.sleep(2); ob.build_internal_order_book();
    ob.calculate_execution_prices(quantity_btc=args.qty)], run over the
    iterations listed in [stored]: for each iteration, the snapshots the
    fetch workers have stored in the shared object by the time the build
    reads them.  The figures of each iteration are collected; an
    exception that leaves the build ends the thread. *)
Fixpoint printer_worker (str_to_float : string -> result Q) (qty : Q)
    (stored : list (value * value)) (ob : OrderBook.t)
    : list (option OrderBook.execution) * thread :=
  match stored with
  | [] => ([], Running ob)
  | (coinbase_book, gemini_book) :: later =>
      let ob :=
        OrderBook.set_gemini_order_book gemini_book
          (OrderBook.set_coinbase_order_book coinbase_book ob) in
      match OrderBook.build_internal_order_book str_to_float ob with
      | Raise e => ([], Terminated e ob)
      | Ok ob =>
          let figures := OrderBook.calculate_execution_prices qty ob in
          let (rest, end_) := printer_worker str_to_float qty later ob in
          (figures :: rest, end_)
      end
  end.

(** ** Further vocabulary *)

Module Network.
Import OrderBook.

(** The network answers request [req] with a status that passes the
    check and a body that parses to [data]. *)
Definition serves (net : network) (req : request) (data : value) : Prop :=
  exists r : response,
    net req = Ok r /\ raise_for_status r = Ok tt /\ json r = Ok data.


End Network.

Module Accounting.
Import OrderBook.


(** All fills but the last. *)
Definition but_last (fs : list fill) : list fill := removelast fs.

(** The fill a level gives when it is taken whole. *)
Definition whole (l : level) : fill :=
  (exchange l, size l, price l, size l * price l).

End Accounting.

Module Polling.
Import OrderBook.

(** The fetch calls a worker of venue [v] makes over [ticks], in order,
    each with its outcome; none after a call that raises, which ends the
    thread. *)
Fixpoint calls (v : venue) (ticks : list tick) (ob : t) : list outcome :=
  match ticks with
  | [] => []
  | (now, net) :: later =>
      let o := Fetcher.fetch v now net ob in
      o :: match ended o with
           | Ok _ => calls v later (after o)
           | Raise _ => []
           end
  end.

(** The call sent a request. *)
Definition polled (o : outcome) : bool :=
  match sent o with
  | [] => false
  | _ :: _ => true
  end.

End Polling.

(* ================================================================= *)
(** * Properties *)

Unset Implicit Arguments.

(** ** Numbers and results *)

Lemma Qle_bool_false (x y : Q) : Qle_bool x y = false <-> y < x.
Proof.
  split; intro H.
  - destruct (Qlt_le_dec y x) as [Hlt | Hle]; [exact Hlt |].
    apply Qle_bool_iff in Hle. congruence.
  - destruct (Qle_bool x y) eqn:E; [| reflexivity].
    apply Qle_bool_iff in E. lra.
Qed.

Lemma py_min_le_left (a b : Q) : Py.min a b <= a.
Proof.
  unfold Py.min. destruct (Qle_bool a b) eqn:E.
  - lra.
  - apply Qle_bool_false in E. lra.
Qed.



Lemma bind_Ok {A B : Type} (c : result A) (k : A -> result B) (b : B) :
  (x <- c ;; k x) = Ok b -> exists a, c = Ok a /\ k a = Ok b.
Proof.
  destruct c as [a | e]; simpl; intro H; [eauto | discriminate].
Qed.

(* ----------------------------------------------------------------- *)
(** ** The rate limiter *)

Section RateLimiterFacts.
Import RateLimiter.

Lemma allow_granted (now : Q) (rl : t) :
  min_interval rl <= now - last_called rl ->
  allow now rl = (true, {| min_interval := min_interval rl; last_called := now |}).
Proof.
  intro H. unfold allow. apply Qle_bool_iff in H. now rewrite H.
Qed.

Lemma allow_denied (now : Q) (rl : t) :
  ~ min_interval rl <= now - last_called rl ->
  allow now rl = (false, rl).
Proof.
  intro H. unfold allow.
  destruct (Qle_bool (min_interval rl) (now - last_called rl)) eqn:E;
    [| reflexivity].
  apply Qle_bool_iff in E. contradiction.
Qed.

Lemma allow_cases (now : Q) (rl : t) :
  (min_interval rl <= now - last_called rl /\
   allow now rl = (true, {| min_interval := min_interval rl; last_called := now |}))
  \/ (now - last_called rl < min_interval rl /\ allow now rl = (false, rl)).
Proof.
  destruct (Qlt_le_dec (now - last_called rl) (min_interval rl)) as [Hlt | Hle].
  - right. split; [exact Hlt |]. apply allow_denied. lra.
  - left. split; [exact Hle |]. now apply allow_granted.
Qed.

(** Every call granted in a run happens at least [min_interval] after the
    time recorded when the run starts. *)
Lemma granted_after_last (clock : list Q) :
  forall (rl : t) (i : nat) (ti : Q),
    0 < min_interval rl ->
    nth_error clock i = Some ti ->
    nth_error (fst (allow_all clock rl)) i = Some true ->
    last_called rl + min_interval rl <= ti.
Proof.
  induction clock as [| now later IH]; intros rl i ti Hpos Hti Hgr.
  - destruct i; discriminate.
  - simpl in Hgr.
    destruct (allow_cases now rl) as [[Hle E] | [Hlt E]]; rewrite E in Hgr;
      match type of Hgr with
      | context [allow_all later ?s] =>
          specialize (IH s); destruct (allow_all later s) as [rest s2] eqn:Erun
      end; simpl in *;
      destruct i as [| i]; simpl in *.
    + injection Hti as <-. lra.
    + specialize (IH i ti Hpos Hti Hgr). simpl in IH. lra.
    + discriminate.
    + exact (IH i ti Hpos Hti Hgr).
Qed.

Lemma granted_apart (clock : list Q) :
  forall (rl : t) (i j : nat) (ti tj : Q),
    0 < min_interval rl ->
    (i < j)%nat ->
    nth_error clock i = Some ti ->
    nth_error clock j = Some tj ->
    nth_error (fst (allow_all clock rl)) i = Some true ->
    nth_error (fst (allow_all clock rl)) j = Some true ->
    min_interval rl <= tj - ti.
Proof.
  induction clock as [| now later IH]; intros rl i j ti tj Hpos Hij Hti Htj Hgi Hgj.
  - destruct i; discriminate.
  - destruct j as [| j]; [lia |].
    simpl in Hgi, Hgj.
    destruct (allow_cases now rl) as [[Hle E] | [Hlt E]]; rewrite E in Hgi, Hgj;
      match type of Hgj with
      | context [allow_all later ?s] =>
          pose proof (granted_after_last later s j tj) as Hafter;
          specialize (IH s);
          destruct (allow_all later s) as [rest s2] eqn:Erun
      end; simpl in *;
      destruct i as [| i]; simpl in *.
    + injection Hti as <-.
      specialize (Hafter Hpos Htj Hgj). lra.
    + apply (IH i j ti tj); auto. lia.
    + discriminate.
    + apply (IH i j ti tj); auto. lia.
Qed.

End RateLimiterFacts.

(** C2.  A call of [allow] at clock reading [now] is granted exactly when
    [now - last_called >= min_interval]; a granted call records [now] as
    [last_called], a denied call leaves the limiter as it was.  Hence,
    when [min_interval > 0], any two granted calls of a sequence of calls
    on one limiter are at least [min_interval] apart. *)
Theorem allow_at_most_once_per_interval (rl : RateLimiter.t) (clock : list Q) :
  0 < RateLimiter.min_interval rl ->
  (forall (now : Q) (s : RateLimiter.t),
      (fst (RateLimiter.allow now s) = true <->
       RateLimiter.min_interval s <= now - RateLimiter.last_called s)
      /\ (fst (RateLimiter.allow now s) = true ->
          snd (RateLimiter.allow now s) =
          {| RateLimiter.min_interval := RateLimiter.min_interval s;
             RateLimiter.last_called := now |})
      /\ (fst (RateLimiter.allow now s) = false ->
          snd (RateLimiter.allow now s) = s))
  /\ (forall (i j : nat) (ti tj : Q),
        (i < j)%nat ->
        nth_error clock i = Some ti ->
        nth_error clock j = Some tj ->
        nth_error (fst (RateLimiter.allow_all clock rl)) i = Some true ->
        nth_error (fst (RateLimiter.allow_all clock rl)) j = Some true ->
        RateLimiter.min_interval rl <= tj - ti).
Proof.
  intro Hpos. split.
  - intros now s.
    destruct (allow_cases now s) as [[Hle E] | [Hlt E]]; rewrite E; simpl.
    + repeat split; auto; discriminate.
    + repeat split; auto; try discriminate. intro H. lra.
  - intros i j ti tj. now apply granted_apart.
Qed.

Lemma allow_at_most_once_per_interval_witness :
  0 < RateLimiter.min_interval (RateLimiter.init 2)
  /\ (forall (i j : nat) (ti tj : Q),
        (i < j)%nat ->
        nth_error [1; 2; 3; 5; 6] i = Some ti ->
        nth_error [1; 2; 3; 5; 6] j = Some tj ->
        nth_error (fst (RateLimiter.allow_all [1; 2; 3; 5; 6] (RateLimiter.init 2))) i
          = Some true ->
        nth_error (fst (RateLimiter.allow_all [1; 2; 3; 5; 6] (RateLimiter.init 2))) j
          = Some true ->
        RateLimiter.min_interval (RateLimiter.init 2) <= tj - ti).
Proof.
  split.
  - reflexivity.
  - apply (allow_at_most_once_per_interval (RateLimiter.init 2) [1; 2; 3; 5; 6]).
    reflexivity.
Defined.

Example allow_all_sample :
  fst (RateLimiter.allow_all [1; 2; 3; 5; 6] (RateLimiter.init 2))
  = [false; true; false; true; false].
Proof. reflexivity. Qed.

(* ----------------------------------------------------------------- *)
(** ** The fetchers *)

Section FetcherFacts.
Import OrderBook Fetcher.

Lemma set_coinbase_limiter_same (self : t) :
  set_coinbase_limiter (coinbase_limiter self) self = self.
Proof. now destruct self. Qed.

Lemma set_gemini_limiter_same (self : t) :
  set_gemini_limiter (gemini_limiter self) self = self.
Proof. now destruct self. Qed.

Lemma allow_fst_false (now : Q) (rl : RateLimiter.t) :
  fst (RateLimiter.allow now rl) = false -> RateLimiter.allow now rl = (false, rl).
Proof.
  destruct (allow_cases now rl) as [[_ E] | [_ E]]; rewrite E; simpl;
    [discriminate | reflexivity].
Qed.

Lemma allow_fst_true (now : Q) (rl : RateLimiter.t) :
  fst (RateLimiter.allow now rl) = true ->
  RateLimiter.allow now rl
  = (true, {| RateLimiter.min_interval := RateLimiter.min_interval rl;
              RateLimiter.last_called := now |}).
Proof.
  destruct (allow_cases now rl) as [[_ E] | [_ E]]; rewrite E; simpl;
    [reflexivity | discriminate].
Qed.

(** The three fallible steps of a fetch, run in order, end in the
    exception of the first step that fails. *)
Lemma fails_raises (net : network) (req : request) (e : exn) :
  fails net req e ->
  (response <- net req ;; _ <- raise_for_status response ;; json response)
  = Raise e.
Proof.
  intros [H | r H1 H2 | r H1 H2 H3]; rewrite ?H, ?H1; simpl;
    rewrite ?H2; simpl; auto.
Qed.

Lemma failed_fetch_outcome (v : venue) (now : Q) (net : network) (self : t) (e : exn) :
  fst (RateLimiter.allow now (limiter v self)) = true ->
  fails net (request_of v) e ->
  exists self1,
    fetch v now net self
    = {| after := self1; sent := [request_of v]; ended := Raise e |}
    /\ (forall w, snapshot w self1 = snapshot w self)
    /\ internal_order_book self1 = internal_order_book self.
Proof.
  intros Hgr Hfail. apply allow_fst_true in Hgr. apply fails_raises in Hfail.
  destruct v; simpl in *.
  - unfold fetch_coinbase. rewrite Hgr. cbv zeta. simpl negb. cbv iota.
    rewrite Hfail. eexists. split; [reflexivity |].
    split; [intros []; reflexivity | reflexivity].
  - unfold fetch_gemini. rewrite Hgr. cbv zeta. simpl negb. cbv iota.
    rewrite Hfail. eexists. split; [reflexivity |].
    split; [intros []; reflexivity | reflexivity].
Qed.

End FetcherFacts.

(** C8.  When the venue's rate limiter denies the call, the fetcher of
    that venue returns at once: it sends no request, ends normally, and
    leaves the object, the stored snapshots included, exactly as it
    was. *)
Theorem denied_fetch_changes_nothing
    (v : OrderBook.venue) (now : Q) (net : OrderBook.network) (self : OrderBook.t) :
  fst (RateLimiter.allow now (Fetcher.limiter v self)) = false ->
  Fetcher.fetch v now net self
  = {| OrderBook.after := self; OrderBook.sent := []; OrderBook.ended := Ok tt |}.
Proof.
  intro Hden. apply allow_fst_false in Hden.
  destruct v; simpl in *.
  - unfold OrderBook.fetch_coinbase. rewrite Hden. simpl.
    now rewrite set_coinbase_limiter_same.
  - unfold OrderBook.fetch_gemini. rewrite Hden. simpl.
    now rewrite set_gemini_limiter_same.
Qed.

Lemma denied_fetch_changes_nothing_witness :
  fst (RateLimiter.allow 1 (Fetcher.limiter OrderBook.Coinbase (Sample.fetched None)))
  = false
  /\ Fetcher.fetch OrderBook.Coinbase 1 (Sample.serving VNone) (Sample.fetched None)
     = {| OrderBook.after := Sample.fetched None;
          OrderBook.sent := [];
          OrderBook.ended := Ok tt |}.
Proof.
  split.
  - reflexivity.
  - apply (denied_fetch_changes_nothing OrderBook.Coinbase 1
             (Sample.serving VNone) (Sample.fetched None)).
    reflexivity.
Defined.

(** C3, as stated, fails: a fetch whose request times out ends with the
    exception instead of ending normally. *)
Lemma fetch_failure_is_not_contained :
  ~ (forall (v : OrderBook.venue) (now : Q) (net : OrderBook.network)
            (self : OrderBook.t) (e : exn) (later : list tick),
        fst (RateLimiter.allow now (Fetcher.limiter v self)) = true ->
        Fetcher.fails net (Fetcher.request_of v) e ->
        OrderBook.ended (Fetcher.fetch v now net self) = Ok tt
        /\ Fetcher.snapshot v (OrderBook.after (Fetcher.fetch v now net self))
           = Fetcher.snapshot v self
        /\ Fetcher.worker v ((now, net) :: later) self
           = Fetcher.worker v later (OrderBook.after (Fetcher.fetch v now net self))).
Proof.
  intro H.
  destruct (H OrderBook.Coinbase 5 Sample.down (OrderBook.init None)
              RequestException []) as [Hended _].
  - reflexivity.
  - now apply Fetcher.request_fails.
  - discriminate Hended.
Qed.

(** C3, amended.  When the request, the status check or the parsing of
    the payload fails in a granted fetch, the stored snapshots and the
    internal book are left unchanged, and the exception is not caught: it
    leaves the fetch, and the worker loop of that venue ends with it. *)
Theorem failed_fetch_keeps_snapshot_and_raises
    (v : OrderBook.venue) (now : Q) (net : OrderBook.network)
    (self : OrderBook.t) (e : exn) :
  fst (RateLimiter.allow now (Fetcher.limiter v self)) = true ->
  Fetcher.fails net (Fetcher.request_of v) e ->
  OrderBook.ended (Fetcher.fetch v now net self) = Raise e
  /\ OrderBook.sent (Fetcher.fetch v now net self) = [Fetcher.request_of v]
  /\ (forall w, Fetcher.snapshot w (OrderBook.after (Fetcher.fetch v now net self))
                = Fetcher.snapshot w self)
  /\ OrderBook.internal_order_book (OrderBook.after (Fetcher.fetch v now net self))
     = OrderBook.internal_order_book self
  /\ (forall later : list tick,
        Fetcher.worker v ((now, net) :: later) self
        = Terminated e (OrderBook.after (Fetcher.fetch v now net self))).
Proof.
  intros Hgr Hfail.
  destruct (failed_fetch_outcome v now net self e Hgr Hfail) as (self1 & E & Hs & Hb).
  assert (Hw : forall later,
             Fetcher.worker v ((now, net) :: later) self
             = match OrderBook.ended (Fetcher.fetch v now net self) with
               | Ok _ => Fetcher.worker v later
                           (OrderBook.after (Fetcher.fetch v now net self))
               | Raise e' => Terminated e'
                               (OrderBook.after (Fetcher.fetch v now net self))
               end)
    by (destruct v; reflexivity).
  repeat split; try (rewrite E; simpl; auto; fail).
  intro later. rewrite Hw, E. reflexivity.
Qed.

Lemma failed_fetch_keeps_snapshot_and_raises_witness :
  fst (RateLimiter.allow 5 (Fetcher.limiter OrderBook.Gemini (Sample.fetched None)))
  = true
  /\ Fetcher.fails Sample.down (Fetcher.request_of OrderBook.Gemini) RequestException
  /\ OrderBook.ended (Fetcher.fetch OrderBook.Gemini 5 Sample.down (Sample.fetched None))
     = Raise RequestException.
Proof.
  split; [reflexivity |].
  split; [now apply Fetcher.request_fails |].
  apply (failed_fetch_keeps_snapshot_and_raises OrderBook.Gemini 5 Sample.down
           (Sample.fetched None) RequestException).
  - reflexivity.
  - now apply Fetcher.request_fails.
Defined.

(* ----------------------------------------------------------------- *)
(** ** The stable sort *)

Section SortFacts.
Variable A : Type.
Variable before : A -> A -> bool.
Variable R : A -> A -> Prop.
Hypothesis before_true : forall x y, before x y = true -> R x y.
Hypothesis before_false : forall x y, before x y = false -> R y x.



Lemma insert_HdRel (a x : A) (l : list A) :
  R a x -> HdRel R a l -> HdRel R a (insert before x l).
Proof.
  intros Hax Hal. destruct l as [| y rest]; simpl.
  - now constructor.
  - destruct (before x y); constructor; [exact Hax |].
    now inversion Hal.
Qed.

Lemma insert_sorted (x : A) (l : list A) :
  Sorted R l -> Sorted R (insert before x l).
Proof.
  induction 1 as [| y rest Hrest IH Hhd]; simpl.
  - repeat constructor.
  - destruct (before x y) eqn:E.
    + constructor; [now constructor |].
      constructor. now apply before_true.
    + constructor; [exact IH |].
      apply insert_HdRel; [now apply before_false | exact Hhd].
Qed.

Lemma sort_sorted (l : list A) : Sorted R (sort before l).
Proof.
  induction l as [| x rest IH]; simpl.
  - constructor.
  - now apply insert_sorted.
Qed.

(** Stability: the elements of a class [p] that nothing outside the
    class is sorted in between keep their order. *)
Lemma filter_insert (p : A -> bool) (x : A) (l : list A) :
  (forall y, p x = true -> before x y = false -> p y = false) ->
  filter p (insert before x l) = filter p (x :: l).
Proof.
  intro Hp. induction l as [| y rest IH]; simpl; [reflexivity |].
  destruct (before x y) eqn:E; simpl; [reflexivity |].
  simpl in IH. rewrite IH.
  destruct (p x) eqn:Ex; [| reflexivity].
  now rewrite (Hp y eq_refl E).
Qed.

Lemma sort_stable (p : A -> bool) (l : list A) :
  (forall x y, p x = true -> before x y = false -> p y = false) ->
  filter p (sort before l) = filter p l.
Proof.
  intro Hp. induction l as [| x rest IH]; simpl; [reflexivity |].
  rewrite filter_insert by (apply Hp). simpl. now rewrite IH.
Qed.

End SortFacts.

(* ----------------------------------------------------------------- *)
(** ** The execution simulator *)

Section ExecutionFacts.
Import OrderBook Execution.



Lemma sort_asks_ascending (l : list level) : StronglySorted ascending (sort_asks l).
Proof.
  apply Sorted_StronglySorted.
  - intros a b c Hab Hbc. unfold ascending in *. lra.
  - apply sort_sorted; intros x y H; unfold ascending.
    + now apply Qle_bool_iff in H.
    + apply Qle_bool_false in H. lra.
Qed.

Lemma sort_bids_descending (l : list level) : StronglySorted descending (sort_bids l).
Proof.
  apply Sorted_StronglySorted.
  - intros a b c Hab Hbc. unfold descending in *. lra.
  - apply sort_sorted; intros x y H; unfold descending.
    + now apply Qle_bool_iff in H.
    + apply Qle_bool_false in H. lra.
Qed.

(** Asks of one price stay in the order the book has them. *)
Lemma sort_asks_stable (p : Q) (l : list level) :
  filter (fun x => Qeq_bool (price x) p) (sort_asks l)
  = filter (fun x => Qeq_bool (price x) p) l.
Proof.
  apply sort_stable. intros x y Hx Hxy.
  apply Qeq_bool_iff in Hx. apply Qle_bool_false in Hxy.
  destruct (Qeq_bool (price y) p) eqn:Ey; [| reflexivity].
  apply Qeq_bool_iff in Ey. lra.
Qed.

(** Bids of one price stay in the order the book has them. *)
Lemma sort_bids_stable (p : Q) (l : list level) :
  filter (fun x => Qeq_bool (price x) p) (sort_bids l)
  = filter (fun x => Qeq_bool (price x) p) l.
Proof.
  apply sort_stable. intros x y Hx Hxy.
  apply Qeq_bool_iff in Hx. apply Qle_bool_false in Hxy.
  destruct (Qeq_bool (price y) p) eqn:Ey; [| reflexivity].
  apply Qeq_bool_iff in Ey. lra.
Qed.




(** The loop stops at once when nothing is asked for. *)
Lemma take_levels_stop (lvls : list level) (acc : tally) :
  Qle_bool (remaining acc) 0 = true -> take_levels lvls acc = acc.
Proof.
  intro H. destruct lvls; simpl; [reflexivity | now rewrite H].
Qed.

(** The fills the loop adds are taken, one each and in order, from the
    first levels of the list, and none takes more than its level has. *)
Lemma take_levels_fills (lvls : list level) :
  forall acc : tally,
  exists new : list fill,
    fills (take_levels lvls acc) = fills acc ++ new
    /\ Forall2 (fun f l => taken_from f l /\ fill_size f <= size l)
         new (firstn (List.length new) lvls).
Proof.
  induction lvls as [| l rest IH]; intro acc; simpl.
  - exists []. rewrite app_nil_r. split; [reflexivity | constructor].
  - destruct (Qle_bool (remaining acc) 0).
    + exists []. rewrite app_nil_r. split; [reflexivity | constructor].
    + match goal with
      | |- context [take_levels rest ?a] => destruct (IH a) as (new & Hf & Hall)
      end.
      simpl in Hf.
      exists ((exchange l, Py.min (size l) (remaining acc), price l,
               Py.min (size l) (remaining acc) * price l) :: new).
      split.
      * rewrite Hf, <- app_assoc. reflexivity.
      * simpl. constructor; [| exact Hall].
        split; [now repeat split | apply py_min_le_left].
Qed.





End ExecutionFacts.

Example scenario_build :
  OrderBook.build_internal_order_book Sample.decimal (Sample.fetched (Some 2%Z))
  = Ok (Sample.merged (Some 2%Z)).
Proof. reflexivity. Qed.

(** The first concrete scenario of the specification: buying 2. *)
Example scenario_buy_2 :
  exists r,
    OrderBook.calculate_execution_prices 2 (Sample.merged (Some 2%Z)) = Some r
    /\ OrderBook.fills (OrderBook.buy r)
       = [(OrderBook.Coinbase, 1, 100, 1 * 100);
          (OrderBook.Gemini, 1, 100.5, 1 * 100.5)]
    /\ OrderBook.total (OrderBook.buy r) == 200.5
    /\ OrderBook.remaining (OrderBook.buy r) == 0.
Proof.
  eexists. split; [reflexivity |]. simpl.
  split; [reflexivity |]. split; reflexivity.
Qed.

(** The second one: buying 10 against a total ask size of 4.5. *)
Example scenario_buy_10 :
  exists r,
    OrderBook.calculate_execution_prices 10 (Sample.merged (Some 2%Z)) = Some r
    /\ Execution.filled (OrderBook.fills (OrderBook.buy r)) == 4.5
    /\ OrderBook.total (OrderBook.buy r) == 452.75
    /\ OrderBook.remaining (OrderBook.buy r) == 5.5.
Proof.
  eexists. split; [reflexivity |]. simpl.
  split; [reflexivity |]. split; reflexivity.
Qed.





(** C7, as stated, fails: for a negative quantity what remains is the
    quantity itself, not [max(quantity, 0)]. *)
Lemma negative_quantity_remainder_is_not_clamped :
  ~ (forall (self : OrderBook.t) (book : OrderBook.book) (quantity : Q),
        OrderBook.internal_order_book self = Some book ->
        quantity <= 0 ->
        exists r : OrderBook.execution,
          OrderBook.calculate_execution_prices quantity self = Some r
          /\ OrderBook.fills (OrderBook.buy r) = []
          /\ Execution.filled (OrderBook.fills (OrderBook.buy r)) == 0
          /\ OrderBook.total (OrderBook.buy r) == 0
          /\ OrderBook.remaining (OrderBook.buy r) == Qmax quantity 0).
Proof.
  intro H.
  destruct (H (Sample.merged None) Sample.book (-1)) as (r & Hr & _ & _ & _ & Hrem).
  - reflexivity.
  - vm_compute; discriminate.
  - injection Hr as <-. vm_compute in Hrem. discriminate Hrem.
Qed.

(** C7, amended.  For a quantity that is zero or negative and any
    internal book, the simulation fills nothing on either side: no fill,
    filled quantity 0, total value 0; and what remains is the quantity
    asked for, unchanged. *)
Theorem nothing_asked_nothing_filled
    (self : OrderBook.t) (book : OrderBook.book) (quantity : Q) :
  OrderBook.internal_order_book self = Some book ->
  quantity <= 0 ->
  exists r : OrderBook.execution,
    OrderBook.calculate_execution_prices quantity self = Some r
    /\ OrderBook.fills (OrderBook.buy r) = []
    /\ Execution.filled (OrderBook.fills (OrderBook.buy r)) = 0
    /\ OrderBook.total (OrderBook.buy r) = 0
    /\ OrderBook.remaining (OrderBook.buy r) = quantity
    /\ OrderBook.fills (OrderBook.sell r) = []
    /\ Execution.filled (OrderBook.fills (OrderBook.sell r)) = 0
    /\ OrderBook.total (OrderBook.sell r) = 0
    /\ OrderBook.remaining (OrderBook.sell r) = quantity.
Proof.
  intros Hbook Hq. apply Qle_bool_iff in Hq.
  unfold OrderBook.calculate_execution_prices. rewrite Hbook.
  eexists. split; [reflexivity |]. simpl.
  rewrite !take_levels_stop by exact Hq.
  repeat split.
Qed.

Lemma nothing_asked_nothing_filled_witness :
  -1 <= 0
  /\ exists r : OrderBook.execution,
       OrderBook.calculate_execution_prices (-1) (Sample.merged None) = Some r
       /\ OrderBook.fills (OrderBook.buy r) = []
       /\ OrderBook.remaining (OrderBook.buy r) = -1.
Proof.
  split; [vm_compute; discriminate |].
  destruct (nothing_asked_nothing_filled (Sample.merged None) Sample.book (-1))
    as (r & Hr & Hf & _ & _ & Hrem & _).
  - reflexivity.
  - vm_compute; discriminate.
  - exists r. repeat split; assumption.
Defined.

(** C9.  Whatever the quantity, each fill of the simulation, on the buy
    side and on the sell side, is taken from one level of the sorted
    side, in order, and its size is at most the size of that level. *)
Theorem fill_never_exceeds_level_size
    (self : OrderBook.t) (book : OrderBook.book) (quantity : Q)
    (r : OrderBook.execution) :
  OrderBook.internal_order_book self = Some book ->
  OrderBook.calculate_execution_prices quantity self = Some r ->
  Forall2 (fun f l => Execution.taken_from f l
                      /\ Execution.fill_size f <= OrderBook.size l)
    (OrderBook.fills (OrderBook.buy r))
    (firstn (List.length (OrderBook.fills (OrderBook.buy r)))
       (OrderBook.sort_asks (OrderBook.asks book)))
  /\ Forall2 (fun f l => Execution.taken_from f l
                         /\ Execution.fill_size f <= OrderBook.size l)
       (OrderBook.fills (OrderBook.sell r))
       (firstn (List.length (OrderBook.fills (OrderBook.sell r)))
          (OrderBook.sort_bids (OrderBook.bids book))).
Proof.
  intros Hbook Hr.
  unfold OrderBook.calculate_execution_prices in Hr. rewrite Hbook in Hr.
  injection Hr as <-. simpl.
  split.
  - destruct (take_levels_fills (OrderBook.sort_asks (OrderBook.asks book))
                {| OrderBook.remaining := quantity;
                   OrderBook.total := 0;
                   OrderBook.fills := [] |}) as (new & Hf & Hall).
    simpl in Hf. rewrite Hf. exact Hall.
  - destruct (take_levels_fills (OrderBook.sort_bids (OrderBook.bids book))
                {| OrderBook.remaining := quantity;
                   OrderBook.total := 0;
                   OrderBook.fills := [] |}) as (new & Hf & Hall).
    simpl in Hf. rewrite Hf. exact Hall.
Qed.

Lemma fill_never_exceeds_level_size_witness :
  exists r : OrderBook.execution,
    OrderBook.calculate_execution_prices 2 (Sample.merged None) = Some r
    /\ Forall2 (fun f l => Execution.taken_from f l
                           /\ Execution.fill_size f <= OrderBook.size l)
         (OrderBook.fills (OrderBook.buy r))
         (firstn (List.length (OrderBook.fills (OrderBook.buy r)))
            (OrderBook.sort_asks (OrderBook.asks Sample.book))).
Proof.
  eexists. split; [reflexivity |].
  apply (fill_never_exceeds_level_size (Sample.merged None) Sample.book 2);
    reflexivity.
Defined.

(* ----------------------------------------------------------------- *)
(** ** The merger *)

Section MergerFacts.
Import OrderBook Merged.
Variable str_to_float : string -> result Q.

Lemma chars_length (s : string) : List.length (chars s) = String.length s.
Proof. induction s as [| c s IH]; simpl; [reflexivity | now rewrite IH]. Qed.

Lemma chars_substring (s : string) :
  forall n : nat, chars (substring 0 n s) = firstn n (chars s).
Proof.
  induction s as [| c s IH]; intros [| n]; simpl; try reflexivity.
  now rewrite IH.
Qed.

(** The items of a slice are a prefix of the items of the sequence. *)
Lemma slice_iter (raw prefix : value) (stop : Z) (lvls : list value) :
  slice_to raw stop = Ok prefix ->
  iter prefix = Ok lvls ->
  exists all : list value,
    iter raw = Ok all
    /\ len raw = Ok (Z.of_nat (List.length all))
    /\ lvls = firstn (slice_stop (List.length all) stop) all.
Proof.
  destruct raw as [| b | q | s | items | entries]; simpl; try discriminate.
  - intros [= <-] [= <-]. exists (chars s).
    rewrite chars_length, chars_substring. auto.
  - intros [= <-] [= <-]. exists items. auto.
Qed.

Lemma append_levels_read (body : value -> result level) (lvls : list value) :
  forall side : list level,
    append_levels body lvls side
    = (entries <- read body lvls ;; Ok (side ++ entries)).
Proof.
  induction lvls as [| lvl rest IH]; intro side; simpl.
  - now rewrite app_nil_r.
  - destruct (body lvl) as [entry | e]; simpl; [| reflexivity].
    rewrite IH. destruct (read body rest) as [entries | e]; simpl; [| reflexivity].
    now rewrite <- app_assoc.
Qed.

Lemma read_length (body : value -> result level) (lvls : list value) :
  forall entries : list level,
    read body lvls = Ok entries -> List.length entries = List.length lvls.
Proof.
  induction lvls as [| lvl rest IH]; simpl; intros entries H.
  - now injection H as <-.
  - destruct (body lvl) as [entry | e]; simpl in H; [| discriminate].
    destruct (read body rest) as [es | e]; simpl in H; [| discriminate].
    injection H as <-. simpl. now rewrite (IH es).
Qed.

Lemma body_exchange (v : venue) (lvl : value) (entry : level) :
  Merged.body str_to_float v lvl = Ok entry -> exchange entry = v.
Proof.
  destruct v; simpl; unfold coinbase_level, gemini_level; intro H;
    repeat (apply bind_Ok in H; destruct H as (? & _ & H));
    now injection H as <-.
Qed.

Lemma read_exchange (v : venue) (lvls : list value) :
  forall entries : list level,
    read (Merged.body str_to_float v) lvls = Ok entries ->
    Forall (fun l => exchange l = v) entries.
Proof.
  induction lvls as [| lvl rest IH]; simpl; intros entries H.
  - injection H as <-. constructor.
  - destruct (Merged.body str_to_float v lvl) as [entry | e] eqn:E;
      simpl in H; [| discriminate].
    destruct (read (Merged.body str_to_float v) rest) as [es | e];
      simpl in H; [| discriminate].
    injection H as <-. constructor; [now apply body_exchange in E | now apply IH].
Qed.

Lemma from_same (v : venue) (side : list level) :
  Forall (fun l => exchange l = v) side -> from v side = side.
Proof.
  induction 1 as [| l rest Hl _ IH]; simpl; [reflexivity |].
  rewrite Hl, IH. now destruct v.
Qed.

Lemma from_other (v : venue) (side : list level) :
  Forall (fun l => exchange l = other v) side -> from v side = [].
Proof.
  induction 1 as [| l rest Hl _ IH]; simpl; [reflexivity |].
  rewrite Hl, IH. now destruct v.
Qed.

Lemma from_app (v : venue) (side side' : list level) :
  from v (side ++ side') = from v side ++ from v side'.
Proof. apply filter_app. Qed.

(** One venue and one side through the merger: the levels appended are
    the first [kept] of the levels the venue returned, read in order. *)
Lemma side_pipeline (depth : option Z) (venue_book : value) (s : side)
    (body : value -> result level) (raw : value) (stop : Z)
    (side side' : list level) :
  side_of venue_book (name s) = Ok raw ->
  depth_of depth raw = Ok stop ->
  for_levels body raw stop side = Ok side' ->
  exists entries : list level,
    read body (firstn (kept depth (List.length (returned venue_book s)))
                 (returned venue_book s)) = Ok entries
    /\ side' = side ++ entries.
Proof.
  intros Hraw Hstop Hfor. unfold for_levels in Hfor.
  apply bind_Ok in Hfor. destruct Hfor as (prefix & Hslice & Hfor).
  apply bind_Ok in Hfor. destruct Hfor as (lvls & Hiter & Hfor).
  destruct (slice_iter _ _ _ _ Hslice Hiter) as (all & Hall & Hlen & ->).
  rewrite append_levels_read in Hfor.
  apply bind_Ok in Hfor. destruct Hfor as (entries & Hread & [= <-]).
  exists entries. split; [| reflexivity].
  unfold returned. rewrite Hraw, Hall.
  replace (kept depth (List.length all))
    with (slice_stop (List.length all) stop); [exact Hread |].
  unfold kept, depth_of in *. rewrite Hlen in Hstop.
  destruct depth as [d |]; [destruct (d =? 0)%Z |]; simpl in Hstop;
    now injection Hstop as <-.
Qed.

(** A successful build: per venue and side, the levels of the new
    internal book are the kept levels of the snapshot, read in order. *)
Lemma build_levels (self self' : t) :
  build_internal_order_book str_to_float self = Ok self' ->
  exists book : book,
    internal_order_book self' = Some book
    /\ forall (v : venue) (s : side),
         read (Merged.body str_to_float v)
           (firstn (kept (depth self)
                      (List.length (returned (Fetcher.snapshot v self) s)))
              (returned (Fetcher.snapshot v self) s))
         = Ok (from v (levels s book)).
Proof.
  unfold build_internal_order_book. intro H.
  apply bind_Ok in H. destruct H as (cb_bids & Hcb_bids & H).
  apply bind_Ok in H. destruct H as (gm_bids & Hgm_bids & H).
  apply bind_Ok in H. destruct H as (cb_asks & Hcb_asks & H).
  apply bind_Ok in H. destruct H as (gm_asks & Hgm_asks & H).
  apply bind_Ok in H. destruct H as (cb_bids_depth & Hcbd & H).
  apply bind_Ok in H. destruct H as (gm_bids_depth & Hgbd & H).
  apply bind_Ok in H. destruct H as (cb_asks_depth & Hcad & H).
  apply bind_Ok in H. destruct H as (gm_asks_depth & Hgad & H).
  apply bind_Ok in H. destruct H as (bids1 & Hb1 & H).
  apply bind_Ok in H. destruct H as (bids2 & Hb2 & H).
  apply bind_Ok in H. destruct H as (asks1 & Ha1 & H).
  apply bind_Ok in H. destruct H as (asks2 & Ha2 & H).
  injection H as <-.
  destruct (side_pipeline _ _ Bids _ _ _ _ _ Hcb_bids Hcbd Hb1) as (cbb & Rcbb & ->).
  destruct (side_pipeline _ _ Bids _ _ _ _ _ Hgm_bids Hgbd Hb2) as (gmb & Rgmb & ->).
  destruct (side_pipeline _ _ Asks _ _ _ _ _ Hcb_asks Hcad Ha1) as (cba & Rcba & ->).
  destruct (side_pipeline _ _ Asks _ _ _ _ _ Hgm_asks Hgad Ha2) as (gma & Rgma & ->).
  eexists. split; [reflexivity |].
  pose proof (read_exchange Coinbase _ _ Rcbb) as Xcbb.
  pose proof (read_exchange Gemini _ _ Rgmb) as Xgmb.
  pose proof (read_exchange Coinbase _ _ Rcba) as Xcba.
  pose proof (read_exchange Gemini _ _ Rgma) as Xgma.
  intros [] []; simpl; rewrite from_app.
  - rewrite (from_same Coinbase) by assumption.
    rewrite (from_other Coinbase) by assumption. now rewrite app_nil_r.
  - rewrite (from_same Coinbase) by assumption.
    rewrite (from_other Coinbase) by assumption. now rewrite app_nil_r.
  - rewrite (from_other Gemini) by assumption.
    rewrite (from_same Gemini) by assumption. exact Rgmb.
  - rewrite (from_other Gemini) by assumption.
    rewrite (from_same Gemini) by assumption. exact Rgma.
Qed.

Lemma kept_positive (N : Z) (n : nat) :
  (0 < N)%Z -> kept (Some N) n = Nat.min (Z.to_nat N) n.
Proof.
  intro HN. unfold kept, slice_stop.
  destruct (Z.eqb_spec N 0); [lia |].
  destruct (Z.ltb_spec (Z.min N (Z.of_nat n)) 0); lia.
Qed.

Lemma kept_zero (n : nat) : kept (Some 0%Z) n = n.
Proof.
  unfold kept, slice_stop. simpl.
  destruct (Z.ltb_spec (Z.of_nat n) 0); lia.
Qed.

Lemma kept_unset (n : nat) : kept None n = n.
Proof.
  unfold kept, slice_stop.
  destruct (Z.ltb_spec (Z.of_nat n) 0); lia.
Qed.






End MergerFacts.

(** C4, as stated, fails at depth 0: the merged book keeps both asks of
    venue A, not [min(0, 2) = 0] of them. *)
Lemma depth_zero_exceeds_depth :
  ~ (forall (str_to_float : string -> result Q) (self self' : OrderBook.t) (N : Z),
        OrderBook.depth self = Some N ->
        OrderBook.build_internal_order_book str_to_float self = Ok self' ->
        exists book : OrderBook.book,
          OrderBook.internal_order_book self' = Some book
          /\ forall (v : OrderBook.venue) (s : Merged.side),
               Z.of_nat (List.length (Merged.from v (Merged.levels s book)))
               = Z.min N (Z.of_nat (List.length
                                      (Merged.returned (Fetcher.snapshot v self) s)))).
Proof.
  intro H.
  destruct (H Sample.decimal (Sample.fetched (Some 0%Z))
              (Sample.merged (Some 0%Z)) 0%Z) as (book & Hbook & Hcount).
  - reflexivity.
  - reflexivity.
  - injection Hbook as <-.
    specialize (Hcount OrderBook.Coinbase Merged.Asks).
    vm_compute in Hcount. discriminate Hcount.
Qed.

(** C4, amended.  For a configured depth [N >= 1], the internal book a
    successful build leaves contains, for each venue and each side,
    exactly [min(N, number of levels the venue returned)] levels: the
    first levels the venue returned, read in the order it returned them.
    In particular the count per venue and side never exceeds [N]. *)
Theorem merged_levels_are_depth_prefix
    (str_to_float : string -> result Q) (self self' : OrderBook.t) (N : Z) :
  OrderBook.depth self = Some N ->
  (0 < N)%Z ->
  OrderBook.build_internal_order_book str_to_float self = Ok self' ->
  exists book : OrderBook.book,
    OrderBook.internal_order_book self' = Some book
    /\ forall (v : OrderBook.venue) (s : Merged.side),
         List.length (Merged.from v (Merged.levels s book))
         = Nat.min (Z.to_nat N)
             (List.length (Merged.returned (Fetcher.snapshot v self) s))
         /\ Merged.read (Merged.body str_to_float v)
              (firstn (Nat.min (Z.to_nat N)
                         (List.length (Merged.returned (Fetcher.snapshot v self) s)))
                 (Merged.returned (Fetcher.snapshot v self) s))
            = Ok (Merged.from v (Merged.levels s book))
         /\ (Z.of_nat (List.length (Merged.from v (Merged.levels s book))) <= N)%Z.
Proof.
  intros Hdepth HN Hbuild.
  destruct (build_levels str_to_float self self' Hbuild) as (book & Hbook & Hread).
  exists book. split; [exact Hbook |].
  intros v s. specialize (Hread v s).
  rewrite Hdepth, (kept_positive _ _ HN) in Hread.
  pose proof (read_length _ _ _ Hread) as Hlen.
  rewrite length_firstn in Hlen.
  split; [lia |]. split; [exact Hread | lia].
Qed.

Lemma merged_levels_are_depth_prefix_witness :
  OrderBook.depth (Sample.fetched (Some 1%Z)) = Some 1%Z
  /\ (0 < 1)%Z
  /\ exists self' book,
       OrderBook.build_internal_order_book Sample.decimal (Sample.fetched (Some 1%Z))
       = Ok self'
       /\ OrderBook.internal_order_book self' = Some book
       /\ List.length (Merged.from OrderBook.Coinbase (Merged.levels Merged.Asks book))
          = 1%nat.
Proof.
  split; [reflexivity |].
  split; [reflexivity |].
  eexists.
  destruct (merged_levels_are_depth_prefix Sample.decimal
              (Sample.fetched (Some 1%Z)) _ 1%Z eq_refl eq_refl eq_refl)
    as (book & Hbook & Hcount).
  exists book. split; [reflexivity |]. split; [exact Hbook |].
  destruct (Hcount OrderBook.Coinbase Merged.Asks) as (Hlen & _).
  exact Hlen.
Defined.

Section AbsentVenueFacts.
Import OrderBook Merged.
Variable str_to_float : string -> result Q.

Lemma for_levels_empty (body : value -> result level) (stop : Z) (side : list level) :
  for_levels body (VList []) stop side = Ok side.
Proof.
  unfold for_levels. simpl. now rewrite firstn_nil.
Qed.

Lemma depth_of_empty (depth : option Z) :
  exists stop : Z, depth_of depth (VList []) = Ok stop.
Proof.
  destruct depth as [d |]; simpl; [destruct (d =? 0)%Z |]; eauto.
Qed.

Lemma build_without_gemini (self : t) (gemini_book : value) :
  gemini_order_book self = gemini_book ->
  side_of gemini_book "bids" = Ok (VList []) ->
  side_of gemini_book "asks" = Ok (VList []) ->
  built (build_internal_order_book str_to_float self)
  = alone str_to_float Coinbase (depth self) (coinbase_order_book self).
Proof.
  intros Hg Hb Ha.
  destruct (depth_of_empty (depth self)) as (stop & Hstop).
  unfold built, build_internal_order_book, alone. rewrite Hg.
  cbn [Merged.body].
  destruct (side_of (coinbase_order_book self) "bids") as [cb_bids | e];
    cbn [Py.bind]; [| reflexivity].
  rewrite Hb. cbn [Py.bind].
  destruct (side_of (coinbase_order_book self) "asks") as [cb_asks | e];
    cbn [Py.bind]; [| reflexivity].
  rewrite Ha. cbn [Py.bind].
  destruct (depth_of (depth self) cb_bids) as [cb_bids_depth | e];
    cbn [Py.bind]; [| reflexivity].
  rewrite Hstop. cbn [Py.bind].
  destruct (depth_of (depth self) cb_asks) as [cb_asks_depth | e];
    cbn [Py.bind]; [| reflexivity].
  destruct (for_levels (coinbase_level str_to_float) cb_bids cb_bids_depth [])
    as [bids | e]; cbn [Py.bind]; [| reflexivity].
  rewrite for_levels_empty. cbn [Py.bind].
  destruct (for_levels (coinbase_level str_to_float) cb_asks cb_asks_depth [])
    as [asks | e]; cbn [Py.bind]; [| reflexivity].
  rewrite for_levels_empty. reflexivity.
Qed.

Lemma build_without_coinbase (self : t) (coinbase_book : value) :
  coinbase_order_book self = coinbase_book ->
  side_of coinbase_book "bids" = Ok (VList []) ->
  side_of coinbase_book "asks" = Ok (VList []) ->
  built (build_internal_order_book str_to_float self)
  = alone str_to_float Gemini (depth self) (gemini_order_book self).
Proof.
  intros Hc Hb Ha.
  destruct (depth_of_empty (depth self)) as (stop & Hstop).
  unfold built, build_internal_order_book, alone. rewrite Hc, Hb, Ha.
  cbn [Py.bind Merged.body].
  destruct (side_of (gemini_order_book self) "bids") as [gm_bids | e];
    cbn [Py.bind]; [| reflexivity].
  destruct (side_of (gemini_order_book self) "asks") as [gm_asks | e];
    cbn [Py.bind]; [| reflexivity].
  rewrite Hstop. cbn [Py.bind].
  destruct (depth_of (depth self) gm_bids) as [gm_bids_depth | e];
    cbn [Py.bind]; [| reflexivity].
  rewrite ?Hstop. cbn [Py.bind].
  destruct (depth_of (depth self) gm_asks) as [gm_asks_depth | e];
    cbn [Py.bind]; [| reflexivity].
  rewrite for_levels_empty. cbn [Py.bind].
  destruct (for_levels (gemini_level str_to_float) gm_bids gm_bids_depth [])
    as [bids | e]; cbn [Py.bind]; [| reflexivity].
  rewrite ?for_levels_empty. cbn [Py.bind].
  destruct (for_levels (gemini_level str_to_float) gm_asks gm_asks_depth [])
    as [asks | e]; cbn [Py.bind]; reflexivity.
Qed.

End AbsentVenueFacts.

(** C6.  When the snapshot of one venue is absent, the merger treats it
    as an empty book: the internal book it builds (or the exception it
    raises) is the same as with a snapshot of empty bids and asks in its
    place, and the same as the merger run over the other venue alone. *)
Theorem absent_venue_is_empty_book
    (str_to_float : string -> result Q) (v : OrderBook.venue) (self : OrderBook.t) :
  Fetcher.snapshot (Merged.other v) self = VNone ->
  Merged.built (OrderBook.build_internal_order_book str_to_float self)
  = Merged.built
      (OrderBook.build_internal_order_book str_to_float
         (Merged.set_snapshot (Merged.other v) Merged.empty_snapshot self))
  /\ Merged.built (OrderBook.build_internal_order_book str_to_float self)
     = Merged.alone str_to_float v (OrderBook.depth self) (Fetcher.snapshot v self).
Proof.
  intro Habsent. destruct v; simpl in Habsent |- *.
  - rewrite (build_without_gemini str_to_float self VNone Habsent eq_refl eq_refl).
    rewrite (build_without_gemini str_to_float
               (OrderBook.set_gemini_order_book Merged.empty_snapshot self)
               Merged.empty_snapshot eq_refl eq_refl eq_refl).
    split; reflexivity.
  - rewrite (build_without_coinbase str_to_float self VNone Habsent eq_refl eq_refl).
    rewrite (build_without_coinbase str_to_float
               (OrderBook.set_coinbase_order_book Merged.empty_snapshot self)
               Merged.empty_snapshot eq_refl eq_refl eq_refl).
    split; reflexivity.
Qed.

Lemma absent_venue_is_empty_book_witness :
  Fetcher.snapshot (Merged.other OrderBook.Coinbase)
    (OrderBook.set_coinbase_order_book Sample.coinbase_data (OrderBook.init None))
  = VNone
  /\ Merged.built
       (OrderBook.build_internal_order_book Sample.decimal
          (OrderBook.set_coinbase_order_book Sample.coinbase_data (OrderBook.init None)))
     = Merged.alone Sample.decimal OrderBook.Coinbase None Sample.coinbase_data.
Proof.
  split; [reflexivity |].
  apply (absent_venue_is_empty_book Sample.decimal OrderBook.Coinbase
           (OrderBook.set_coinbase_order_book Sample.coinbase_data (OrderBook.init None))).
  reflexivity.
Defined.

(** C10.  A configured depth of 0 truncates nothing: the build gives
    the same internal book (or raises the same exception) as with the
    depth unset, and when it succeeds every level each venue returned,
    bids and asks, is in the internal book. *)
Theorem depth_zero_is_unbounded
    (str_to_float : string -> result Q) (self : OrderBook.t) :
  OrderBook.depth self = Some 0%Z ->
  Merged.built (OrderBook.build_internal_order_book str_to_float self)
  = Merged.built
      (OrderBook.build_internal_order_book str_to_float (Merged.with_depth None self))
  /\ forall self' : OrderBook.t,
       OrderBook.build_internal_order_book str_to_float self = Ok self' ->
       exists book : OrderBook.book,
         OrderBook.internal_order_book self' = Some book
         /\ forall (v : OrderBook.venue) (s : Merged.side),
              Merged.read (Merged.body str_to_float v)
                (Merged.returned (Fetcher.snapshot v self) s)
              = Ok (Merged.from v (Merged.levels s book)).
Proof.
  intro Hdepth. split.
  - unfold Merged.built, OrderBook.build_internal_order_book.
    rewrite Hdepth. simpl.
    repeat match goal with
           | |- context [Py.bind ?c _] =>
               match c with
               | Py.bind _ _ => fail 1
               | _ => idtac
               end;
               destruct c; cbn [Py.bind]; try reflexivity
           end.
  - intros self' Hbuild.
    destruct (build_levels str_to_float self self' Hbuild) as (book & Hbook & Hread).
    exists book. split; [exact Hbook |].
    intros v s. specialize (Hread v s).
    rewrite Hdepth, kept_zero, firstn_all in Hread. exact Hread.
Qed.

Lemma depth_zero_is_unbounded_witness :
  OrderBook.depth (Sample.fetched (Some 0%Z)) = Some 0%Z
  /\ Merged.built
       (OrderBook.build_internal_order_book Sample.decimal (Sample.fetched (Some 0%Z)))
     = Ok (Some Sample.book).
Proof.
  split; [reflexivity |].
  destruct (depth_zero_is_unbounded Sample.decimal (Sample.fetched (Some 0%Z)) eq_refl)
    as (Hsame & _).
  rewrite Hsame. reflexivity.
Defined.

(* ----------------------------------------------------------------- *)
(** ** The model on further inputs *)

(** A worker whose first request times out never gets to the second
    iteration, although the venue would have answered it. *)
Example worker_dies_on_timeout :
  coinbase_worker [(5, Sample.down); (10, Sample.serving Sample.coinbase_data)]
    (OrderBook.init None)
  = Terminated RequestException
      (OrderBook.set_coinbase_limiter
         {| RateLimiter.min_interval := 2; RateLimiter.last_called := 5 |}
         (OrderBook.init None)).
Proof. reflexivity. Qed.

(** A worker that is served stores the snapshot and goes on; the call
    one second later is denied and sends nothing. *)
Example worker_stores_snapshot :
  coinbase_worker [(5, Sample.serving Sample.coinbase_data); (6, Sample.down)]
    (OrderBook.init None)
  = Running
      (OrderBook.set_coinbase_order_book Sample.coinbase_data
         (OrderBook.set_coinbase_limiter
            {| RateLimiter.min_interval := 2; RateLimiter.last_called := 5 |}
            (OrderBook.init None))).
Proof. reflexivity. Qed.

(** A status of 503 raises [HTTPError] and stores nothing. *)
Example fetch_server_error :
  OrderBook.fetch_gemini 5
    (fun _ => Ok {| OrderBook.status_code := 503;
                    OrderBook.json := Ok Sample.gemini_data |})
    (OrderBook.init None)
  = {| OrderBook.after :=
         OrderBook.set_gemini_limiter
           {| RateLimiter.min_interval := 2; RateLimiter.last_called := 5 |}
           (OrderBook.init None);
       OrderBook.sent := [OrderBook.gemini_request];
       OrderBook.ended := Raise HTTPError |}.
Proof. reflexivity. Qed.

(** Before any fetch both snapshots are absent and the build gives an
    empty book. *)
Example build_before_any_fetch :
  Merged.built (OrderBook.build_internal_order_book Sample.decimal (OrderBook.init None))
  = Ok (Some {| OrderBook.bids := []; OrderBook.asks := [] |}).
Proof. reflexivity. Qed.

(** A snapshot without the key ["bids"]: [get] gives [None], and
    [len(None)] raises. *)
Example build_missing_side :
  OrderBook.build_internal_order_book Sample.decimal
    (OrderBook.set_coinbase_order_book (VDict [("asks"%string, VList [])])
       (OrderBook.init None))
  = Raise TypeError.
Proof. reflexivity. Qed.

(** A level whose price is not a numeral raises [ValueError]. *)
Example build_malformed_level :
  OrderBook.build_internal_order_book Sample.decimal
    (OrderBook.set_gemini_order_book
       (VDict [("bids"%string, VList []);
               ("asks"%string,
                VList [VDict [("price"%string, VStr "n/a");
                              ("amount"%string, VStr "1")]])])
       (OrderBook.init None))
  = Raise ValueError.
Proof. reflexivity. Qed.

(** With depth 1 each venue contributes its first level per side. *)
Example build_depth_1 :
  Merged.built
    (OrderBook.build_internal_order_book Sample.decimal (Sample.fetched (Some 1%Z)))
  = Ok (Some
          {| OrderBook.bids :=
               [ {| OrderBook.price := 99; OrderBook.size := 1;
                    OrderBook.exchange := OrderBook.Coinbase |};
                 {| OrderBook.price := 99.5; OrderBook.size := 0.5;
                    OrderBook.exchange := OrderBook.Gemini |} ];
             OrderBook.asks :=
               [ {| OrderBook.price := 100; OrderBook.size := 1;
                    OrderBook.exchange := OrderBook.Coinbase |};
                 {| OrderBook.price := 100.5; OrderBook.size := 1.5;
                    OrderBook.exchange := OrderBook.Gemini |} ] |}).
Proof. reflexivity. Qed.

(** Selling 2 walks the bids from the highest price down. *)
Example scenario_sell_2 :
  exists r,
    OrderBook.calculate_execution_prices 2 (Sample.merged None) = Some r
    /\ OrderBook.fills (OrderBook.sell r)
       = [(OrderBook.Gemini, 0.5, 99.5, 0.5 * 99.5);
          (OrderBook.Coinbase, 1, 99, 1 * 99);
          (OrderBook.Coinbase,
           Py.min 2 (2 - 0.5 - 1), 98, Py.min 2 (2 - 0.5 - 1) * 98)]
    /\ OrderBook.total (OrderBook.sell r) == 197.75
    /\ OrderBook.remaining (OrderBook.sell r) == 0.
Proof.
  eexists. split; [reflexivity |]. simpl.
  split; [reflexivity |]. split; reflexivity.
Qed.

(** No internal book yet: the method returns early. *)
Example calculate_before_build :
  OrderBook.calculate_execution_prices 10 (OrderBook.init None) = None.
Proof. reflexivity. Qed.

(* ================================================================= *)
(** * Further properties *)

(** ** The rate limiter, continued *)

Section RateLimiterRuns.
Import RateLimiter.

Lemma allow_all_length (clock : list Q) :
  forall rl : t, List.length (fst (allow_all clock rl)) = List.length clock.
Proof.
  induction clock as [| now later IH]; intro rl; simpl; [reflexivity |].
  destruct (allow now rl) as [g s1]. specialize (IH s1).
  destruct (allow_all later s1) as [rest s2]. simpl in *. now rewrite IH.
Qed.

Lemma allow_all_app (before after : list Q) :
  forall rl : t,
    allow_all (before ++ after) rl
    = (fst (allow_all before rl) ++ fst (allow_all after (snd (allow_all before rl))),
       snd (allow_all after (snd (allow_all before rl)))).
Proof.
  induction before as [| now later IH]; intro rl; simpl.
  - now destruct (allow_all after rl).
  - destruct (allow now rl) as [g s1]. rewrite (IH s1).
    destruct (allow_all later s1) as [rest s2]. reflexivity.
Qed.

Lemma denied_run_keeps_state (clock : list Q) :
  forall rl : t,
    Forall (eq false) (fst (allow_all clock rl)) ->
    snd (allow_all clock rl) = rl.
Proof.
  induction clock as [| now later IH]; intros rl H; simpl in *; [reflexivity |].
  destruct (allow_cases now rl) as [[_ E] | [_ E]]; rewrite E in *.
  - destruct (allow_all later _) as [rest s2]. simpl in H.
    inversion H; discriminate.
  - specialize (IH rl). destruct (allow_all later rl) as [rest s2]. simpl in *.
    apply IH. now inversion H.
Qed.

Lemma allow_all_min_interval (clock : list Q) :
  forall rl : t, min_interval (snd (allow_all clock rl)) = min_interval rl.
Proof.
  induction clock as [| now later IH]; intro rl; simpl; [reflexivity |].
  destruct (allow_cases now rl) as [[_ E] | [_ E]]; rewrite E;
    match goal with
    | |- context [allow_all later ?s] =>
        specialize (IH s); destruct (allow_all later s) as [rest s2]
    end; simpl in *; exact IH.
Qed.

End RateLimiterRuns.

(** X1.  After any sequence of [allow] calls the limiter keeps its
    [min_interval], and its [last_called] is the clock reading of the
    last call that was granted; when no call was granted the limiter is
    as it was. *)
Theorem limiter_remembers_last_granted (clock : list Q) (rl : RateLimiter.t) :
  RateLimiter.min_interval (snd (RateLimiter.allow_all clock rl))
  = RateLimiter.min_interval rl
  /\ ((Forall (eq false) (fst (RateLimiter.allow_all clock rl))
       /\ snd (RateLimiter.allow_all clock rl) = rl)
      \/ exists (i : nat) (t : Q),
           nth_error clock i = Some t
           /\ nth_error (fst (RateLimiter.allow_all clock rl)) i = Some true
           /\ (forall j : nat,
                 (i < j)%nat ->
                 nth_error (fst (RateLimiter.allow_all clock rl)) j <> Some true)
           /\ RateLimiter.last_called (snd (RateLimiter.allow_all clock rl)) = t).
Proof.
  split; [apply allow_all_min_interval |].
  revert rl. induction clock as [| now later IH]; intro rl; simpl.
  - left. split; [constructor | reflexivity].
  - destruct (allow_cases now rl) as [[_ E] | [_ E]]; rewrite E;
      match goal with
      | |- context [RateLimiter.allow_all later ?s] =>
          pose proof (denied_run_keeps_state later s) as Hkeep;
          destruct (IH s) as [[Hall Hst] | (i & t & Hi & Hg & Hlast & Ht)];
          destruct (RateLimiter.allow_all later s) as [rest s2]
      end; simpl in *.
    + right. exists 0%nat, now. repeat split.
      * intros [| j] Hj; [lia |]. simpl. intro Hj'.
        apply nth_error_In in Hj'. rewrite Forall_forall in Hall.
        specialize (Hall _ Hj'). discriminate.
      * now rewrite Hst.
    + right. exists (S i), t. repeat split; auto.
      intros [| j] Hj; [lia |]. simpl. apply Hlast. lia.
    + left. split; [now constructor | exact Hst].
    + right. exists (S i), t. repeat split; auto.
      intros [| j] Hj; [lia |]. simpl. apply Hlast. lia.
Qed.

(** X2.  Denied calls do not push the next grant back: in a run of
    calls, when the call at reading [t] is granted and every call of the
    burst after it is denied, a call at a reading [now] with
    [now - t >= min_interval] is granted. *)
Theorem denied_burst_does_not_delay
    (before burst : list Q) (t now : Q) (rl : RateLimiter.t) :
  nth_error (fst (RateLimiter.allow_all (before ++ t :: burst ++ [now]) rl))
    (List.length before) = Some true ->
  (forall k : nat,
      (k < List.length burst)%nat ->
      nth_error (fst (RateLimiter.allow_all (before ++ t :: burst ++ [now]) rl))
        (List.length before + 1 + k) = Some false) ->
  RateLimiter.min_interval rl <= now - t ->
  nth_error (fst (RateLimiter.allow_all (before ++ t :: burst ++ [now]) rl))
    (List.length before + 1 + List.length burst) = Some true.
Proof.
  intros Hgr Hden Hnow.
  rewrite allow_all_app in *. cbn [fst] in *.
  set (s0 := snd (RateLimiter.allow_all before rl)) in *.
  assert (Hlen0 : List.length (fst (RateLimiter.allow_all before rl))
                  = List.length before) by apply allow_all_length.
  assert (Hm0 : RateLimiter.min_interval s0 = RateLimiter.min_interval rl)
    by apply allow_all_min_interval.
  change (t :: burst ++ [now]) with ([t] ++ burst ++ [now]) in *.
  rewrite (allow_all_app [t] (burst ++ [now]) s0) in *. cbn [fst] in *.
  rewrite (allow_all_app burst [now]) in *. cbn [fst] in *.
  set (s1 := snd (RateLimiter.allow_all [t] s0)) in *.
  set (s2 := snd (RateLimiter.allow_all burst s1)) in *.
  assert (Hlen1 : List.length (fst (RateLimiter.allow_all [t] s0)) = 1%nat)
    by apply allow_all_length.
  assert (Hlen2 : List.length (fst (RateLimiter.allow_all burst s1))
                  = List.length burst) by apply allow_all_length.
  (* the call at [t] *)
  rewrite nth_error_app2 in Hgr by lia.
  rewrite Hlen0, Nat.sub_diag in Hgr.
  assert (Hs1 : s1 = {| RateLimiter.min_interval := RateLimiter.min_interval rl;
                        RateLimiter.last_called := t |}).
  { unfold s1. simpl in *.
    destruct (allow_cases t s0) as [[_ E] | [_ E]]; rewrite E in *; simpl in *.
    - now rewrite Hm0.
    - discriminate. }
  (* the burst *)
  assert (Hs2 : s2 = s1).
  { apply denied_run_keeps_state. apply Forall_forall. intros b Hb.
    apply In_nth_error in Hb. destruct Hb as (k & Hk).
    assert (Hklt : (k < List.length burst)%nat).
    { rewrite <- Hlen2. apply nth_error_Some. congruence. }
    specialize (Hden k Hklt).
    rewrite nth_error_app2 in Hden by lia.
    rewrite nth_error_app2 in Hden by lia.
    rewrite nth_error_app1 in Hden by lia.
    replace (List.length before + 1 + k - List.length (fst (RateLimiter.allow_all before rl))
             - List.length (fst (RateLimiter.allow_all [t] s0)))%nat with k in Hden by lia.
    congruence. }
  (* the call at [now] *)
  rewrite nth_error_app2 by lia.
  rewrite nth_error_app2 by lia.
  rewrite nth_error_app2 by lia.
  replace (List.length before + 1 + List.length burst
           - List.length (fst (RateLimiter.allow_all before rl))
           - List.length (fst (RateLimiter.allow_all [t] s0))
           - List.length (fst (RateLimiter.allow_all burst s1)))%nat with 0%nat by lia.
  rewrite Hs2, Hs1. simpl.
  rewrite allow_granted by (simpl; exact Hnow). reflexivity.
Qed.

Lemma denied_burst_does_not_delay_witness :
  nth_error (fst (RateLimiter.allow_all ([1] ++ 2 :: [2.5; 3; 3.5] ++ [4])
                    (RateLimiter.init 2))) 5 = Some true.
Proof.
  apply (denied_burst_does_not_delay [1] [2.5; 3; 3.5] 2 4 (RateLimiter.init 2)).
  - reflexivity.
  - intros [| [| [| k]]] Hk; try reflexivity. simpl in Hk. lia.
  - vm_compute. discriminate.
Defined.

(* ----------------------------------------------------------------- *)
(** ** The fetchers, continued *)

Section FetchFacts.
Import OrderBook Fetcher Network.

Lemma serves_gives (net : network) (req : request) (data : value) :
  serves net req data ->
  (response <- net req ;; _ <- raise_for_status response ;; json response)
  = Ok data.
Proof.
  intros (r & H1 & H2 & H3). rewrite H1. simpl. rewrite H2. simpl. exact H3.
Qed.

(** How a fetch ends, in one of three ways. *)
Lemma fetch_cases (v : venue) (now : Q) (net : network) (self : t) :
  let granted := {| RateLimiter.min_interval := RateLimiter.min_interval (limiter v self);
                    RateLimiter.last_called := now |} in
  (fst (RateLimiter.allow now (limiter v self)) = false
   /\ fetch v now net self = {| after := self; sent := []; ended := Ok tt |})
  \/ (fst (RateLimiter.allow now (limiter v self)) = true
      /\ exists e,
           (response <- net (request_of v) ;;
            _ <- raise_for_status response ;; json response) = Raise e
           /\ fetch v now net self
              = {| after := match v with
                            | Coinbase => set_coinbase_limiter granted self
                            | Gemini => set_gemini_limiter granted self
                            end;
                   sent := [request_of v];
                   ended := Raise e |})
  \/ (fst (RateLimiter.allow now (limiter v self)) = true
      /\ exists data,
           (response <- net (request_of v) ;;
            _ <- raise_for_status response ;; json response) = Ok data
           /\ fetch v now net self
              = {| after := match v with
                            | Coinbase =>
                                set_coinbase_order_book data
                                  (set_coinbase_limiter granted self)
                            | Gemini =>
                                set_gemini_order_book data
                                  (set_gemini_limiter granted self)
                            end;
                   sent := [request_of v];
                   ended := Ok tt |}).
Proof.
  intro granted.
  destruct (allow_cases now (limiter v self)) as [[_ E] | [_ E]].
  - right.
    destruct (response <- net (request_of v) ;;
              _ <- raise_for_status response ;; json response)
      as [data | e] eqn:Enet.
    + right. split; [now rewrite E |]. exists data. split; [reflexivity |].
      destruct v; simpl in *.
      * unfold fetch_coinbase. rewrite E. cbv zeta. simpl negb. cbv iota.
        now rewrite Enet.
      * unfold fetch_gemini. rewrite E. cbv zeta. simpl negb. cbv iota.
        now rewrite Enet.
    + left. split; [now rewrite E |]. exists e. split; [reflexivity |].
      destruct v; simpl in *.
      * unfold fetch_coinbase. rewrite E. cbv zeta. simpl negb. cbv iota.
        now rewrite Enet.
      * unfold fetch_gemini. rewrite E. cbv zeta. simpl negb. cbv iota.
        now rewrite Enet.
  - left. split; [now rewrite E |].
    destruct v; simpl in *.
    + unfold fetch_coinbase. rewrite E. simpl.
      now rewrite set_coinbase_limiter_same.
    + unfold fetch_gemini. rewrite E. simpl.
      now rewrite set_gemini_limiter_same.
Qed.

Lemma worker_step (v : venue) (tk : tick) (later : list tick) (ob : t) :
  worker v (tk :: later) ob
  = match ended (fetch v (fst tk) (snd tk) ob) with
    | Ok _ => worker v later (after (fetch v (fst tk) (snd tk) ob))
    | Raise e => Terminated e (after (fetch v (fst tk) (snd tk) ob))
    end.
Proof. destruct v, tk; reflexivity. Qed.

End FetchFacts.

(** X3.  A granted fetch that the venue serves sends exactly one
    request, ends normally and stores the payload as the venue's
    snapshot, whatever the payload is; it records the call time in the
    venue's limiter and leaves the other venue's snapshot and limiter,
    the internal book and the depth as they were. *)
Theorem granted_fetch_stores_payload
    (v : OrderBook.venue) (now : Q) (net : OrderBook.network)
    (self : OrderBook.t) (data : value) :
  fst (RateLimiter.allow now (Fetcher.limiter v self)) = true ->
  Network.serves net (Fetcher.request_of v) data ->
  OrderBook.ended (Fetcher.fetch v now net self) = Ok tt
  /\ OrderBook.sent (Fetcher.fetch v now net self) = [Fetcher.request_of v]
  /\ Fetcher.snapshot v (OrderBook.after (Fetcher.fetch v now net self)) = data
  /\ RateLimiter.last_called
       (Fetcher.limiter v (OrderBook.after (Fetcher.fetch v now net self))) = now
  /\ Fetcher.snapshot (Merged.other v) (OrderBook.after (Fetcher.fetch v now net self))
     = Fetcher.snapshot (Merged.other v) self
  /\ Fetcher.limiter (Merged.other v) (OrderBook.after (Fetcher.fetch v now net self))
     = Fetcher.limiter (Merged.other v) self
  /\ OrderBook.internal_order_book (OrderBook.after (Fetcher.fetch v now net self))
     = OrderBook.internal_order_book self
  /\ OrderBook.depth (OrderBook.after (Fetcher.fetch v now net self))
     = OrderBook.depth self.
Proof.
  intros Hgr Hserves. apply serves_gives in Hserves.
  destruct (fetch_cases v now net self)
    as [[Hd _] | [(_ & e & He & _) | (_ & d & Hd & E)]]; try congruence.
  rewrite E. assert (d = data) by congruence. subst d.
  destruct v; simpl; repeat split.
Qed.

Lemma granted_fetch_stores_payload_witness :
  fst (RateLimiter.allow 5 (Fetcher.limiter OrderBook.Coinbase (OrderBook.init None)))
  = true
  /\ Network.serves (Sample.serving Sample.coinbase_data)
       (Fetcher.request_of OrderBook.Coinbase) Sample.coinbase_data
  /\ Fetcher.snapshot OrderBook.Coinbase
       (OrderBook.after
          (Fetcher.fetch OrderBook.Coinbase 5 (Sample.serving Sample.coinbase_data)
             (OrderBook.init None)))
     = Sample.coinbase_data.
Proof.
  assert (Hs : Network.serves (Sample.serving Sample.coinbase_data)
                 (Fetcher.request_of OrderBook.Coinbase) Sample.coinbase_data)
    by (eexists; repeat split).
  split; [reflexivity |]. split; [exact Hs |].
  apply (granted_fetch_stores_payload OrderBook.Coinbase 5
           (Sample.serving Sample.coinbase_data) (OrderBook.init None)
           Sample.coinbase_data eq_refl Hs).
Defined.

(** X4.  Whatever the clock and the network, a fetch touches only its
    own venue: the other venue's snapshot and limiter, the internal book
    and the depth are unchanged; it sends at most one request, and that
    to its own venue; and its own snapshot changes only in a call that
    ends normally. *)
Theorem fetch_touches_only_its_venue
    (v : OrderBook.venue) (now : Q) (net : OrderBook.network) (self : OrderBook.t) :
  Fetcher.snapshot (Merged.other v) (OrderBook.after (Fetcher.fetch v now net self))
  = Fetcher.snapshot (Merged.other v) self
  /\ Fetcher.limiter (Merged.other v) (OrderBook.after (Fetcher.fetch v now net self))
     = Fetcher.limiter (Merged.other v) self
  /\ OrderBook.internal_order_book (OrderBook.after (Fetcher.fetch v now net self))
     = OrderBook.internal_order_book self
  /\ OrderBook.depth (OrderBook.after (Fetcher.fetch v now net self))
     = OrderBook.depth self
  /\ (OrderBook.sent (Fetcher.fetch v now net self) = []
      \/ OrderBook.sent (Fetcher.fetch v now net self) = [Fetcher.request_of v])
  /\ (Fetcher.snapshot v (OrderBook.after (Fetcher.fetch v now net self))
      = Fetcher.snapshot v self
      \/ OrderBook.ended (Fetcher.fetch v now net self) = Ok tt).
Proof.
  destruct (fetch_cases v now net self)
    as [[_ E] | [(_ & e & _ & E) | (_ & d & _ & E)]]; rewrite E;
    destruct v; simpl; repeat split; auto.
Qed.

(** X5.  A granted fetch that fails has used up the venue's slot: the
    limiter has recorded the call, so a retry less than [min_interval]
    later is denied and sends nothing. *)
Theorem failed_fetch_uses_up_the_slot
    (v : OrderBook.venue) (now retry : Q) (net net' : OrderBook.network)
    (self : OrderBook.t) (e : exn) :
  fst (RateLimiter.allow now (Fetcher.limiter v self)) = true ->
  Fetcher.fails net (Fetcher.request_of v) e ->
  retry - now < RateLimiter.min_interval (Fetcher.limiter v self) ->
  Fetcher.fetch v retry net' (OrderBook.after (Fetcher.fetch v now net self))
  = {| OrderBook.after := OrderBook.after (Fetcher.fetch v now net self);
       OrderBook.sent := [];
       OrderBook.ended := Ok tt |}.
Proof.
  intros Hgr Hfail Hretry. apply fails_raises in Hfail.
  destruct (fetch_cases v now net self)
    as [[Hd _] | [(_ & e' & _ & E) | (_ & d & Hd & _)]]; try congruence.
  rewrite E. cbn [OrderBook.after].
  match goal with
  | |- Fetcher.fetch v retry net' ?s = _ =>
      destruct (fetch_cases v retry net' s) as [[_ E'] | [(Hg & _) | (Hg & _)]]
  end; [exact E' | |];
    destruct v; simpl in Hg;
    unfold RateLimiter.allow in Hg; simpl in Hg;
    (destruct (Qle_bool _ _) eqn:Eq in Hg; [| discriminate]);
    apply Qle_bool_iff in Eq; simpl in Hretry; lra.
Qed.

Lemma failed_fetch_uses_up_the_slot_witness :
  Fetcher.fetch OrderBook.Gemini 6 (Sample.serving Sample.gemini_data)
    (OrderBook.after
       (Fetcher.fetch OrderBook.Gemini 5 Sample.down (OrderBook.init None)))
  = {| OrderBook.after :=
         OrderBook.after
           (Fetcher.fetch OrderBook.Gemini 5 Sample.down (OrderBook.init None));
       OrderBook.sent := [];
       OrderBook.ended := Ok tt |}.
Proof.
  apply (failed_fetch_uses_up_the_slot OrderBook.Gemini 5 6 Sample.down
           (Sample.serving Sample.gemini_data) (OrderBook.init None)
           RequestException).
  - reflexivity.
  - now apply Fetcher.request_fails.
  - reflexivity.
Defined.

(** X6.  A fetch worker whose venue serves every request it sends is
    still running after any number of iterations, granted or denied; it
    has left the other venue's snapshot, the internal book and the depth
    alone. *)
Theorem served_worker_keeps_running
    (v : OrderBook.venue) (ticks : list tick) (ob : OrderBook.t) :
  Forall (fun tk : tick =>
            exists data, Network.serves (snd tk) (Fetcher.request_of v) data) ticks ->
  exists ob' : OrderBook.t,
    Fetcher.worker v ticks ob = Running ob'
    /\ Fetcher.snapshot (Merged.other v) ob' = Fetcher.snapshot (Merged.other v) ob
    /\ OrderBook.internal_order_book ob' = OrderBook.internal_order_book ob
    /\ OrderBook.depth ob' = OrderBook.depth ob.
Proof.
  intro H. revert ob. induction H as [| [now net] later (data & Hs) _ IH]; intro ob.
  - exists ob. destruct v; repeat split.
  - apply serves_gives in Hs. simpl in Hs.
    pose proof (worker_step v (now, net) later ob) as Hstep. simpl in Hstep.
    destruct (fetch_cases v now net ob)
      as [[_ E] | [(_ & e & He & _) | (_ & d & _ & E)]]; try congruence;
      rewrite E in Hstep; cbn [OrderBook.ended OrderBook.after] in Hstep;
      match type of Hstep with
      | _ = Fetcher.worker v later ?s =>
          destruct (IH s) as (ob' & Hrun & G1 & G3 & G4)
      end;
      exists ob'; (split; [now rewrite Hstep |]);
      rewrite G1, G3, G4; destruct v; repeat split.
Qed.

Lemma served_worker_keeps_running_witness :
  exists ob' : OrderBook.t,
    Fetcher.worker OrderBook.Coinbase
      [(5, Sample.serving Sample.coinbase_data); (6, Sample.serving VNone)]
      (OrderBook.init None)
    = Running ob'.
Proof.
  destruct (served_worker_keeps_running OrderBook.Coinbase
              [(5, Sample.serving Sample.coinbase_data); (6, Sample.serving VNone)]
              (OrderBook.init None)) as (ob' & Hrun & _).
  - repeat constructor; eexists; eexists; repeat split.
  - exists ob'. exact Hrun.
Defined.

(* ----------------------------------------------------------------- *)
(** ** The merger, continued *)

Section MergerMore.
Import OrderBook Merged.
Variable str_to_float : string -> result Q.

(** A successful build, taken apart: the four lists of levels read, and
    the object it returns. *)
Lemma build_parts (self self' : t) :
  build_internal_order_book str_to_float self = Ok self' ->
  exists cbb gmb cba gma : list level,
    Forall (fun l => exchange l = Coinbase) cbb
    /\ Forall (fun l => exchange l = Gemini) gmb
    /\ Forall (fun l => exchange l = Coinbase) cba
    /\ Forall (fun l => exchange l = Gemini) gma
    /\ self' = set_internal_order_book {| bids := cbb ++ gmb; asks := cba ++ gma |} self.
Proof.
  unfold build_internal_order_book. intro H.
  apply bind_Ok in H. destruct H as (cb_bids & Hcb_bids & H).
  apply bind_Ok in H. destruct H as (gm_bids & Hgm_bids & H).
  apply bind_Ok in H. destruct H as (cb_asks & Hcb_asks & H).
  apply bind_Ok in H. destruct H as (gm_asks & Hgm_asks & H).
  apply bind_Ok in H. destruct H as (cb_bids_depth & Hcbd & H).
  apply bind_Ok in H. destruct H as (gm_bids_depth & Hgbd & H).
  apply bind_Ok in H. destruct H as (cb_asks_depth & Hcad & H).
  apply bind_Ok in H. destruct H as (gm_asks_depth & Hgad & H).
  apply bind_Ok in H. destruct H as (bids1 & Hb1 & H).
  apply bind_Ok in H. destruct H as (bids2 & Hb2 & H).
  apply bind_Ok in H. destruct H as (asks1 & Ha1 & H).
  apply bind_Ok in H. destruct H as (asks2 & Ha2 & H).
  injection H as <-.
  destruct (side_pipeline _ _ Bids _ _ _ _ _ Hcb_bids Hcbd Hb1) as (cbb & Rcbb & ->).
  destruct (side_pipeline _ _ Bids _ _ _ _ _ Hgm_bids Hgbd Hb2) as (gmb & Rgmb & ->).
  destruct (side_pipeline _ _ Asks _ _ _ _ _ Hcb_asks Hcad Ha1) as (cba & Rcba & ->).
  destruct (side_pipeline _ _ Asks _ _ _ _ _ Hgm_asks Hgad Ha2) as (gma & Rgma & ->).
  exists cbb, gmb, cba, gma. simpl.
  split; [exact (read_exchange str_to_float Coinbase _ _ Rcbb) |].
  split; [exact (read_exchange str_to_float Gemini _ _ Rgmb) |].
  split; [exact (read_exchange str_to_float Coinbase _ _ Rcba) |].
  split; [exact (read_exchange str_to_float Gemini _ _ Rgma) |].
  reflexivity.
Qed.

(** The build reads the snapshots and the depth only: the internal book
    already stored makes no difference to the book it builds. *)
Lemma build_ignores_internal (self : t) (b0 : book) :
  built (build_internal_order_book str_to_float (set_internal_order_book b0 self))
  = built (build_internal_order_book str_to_float self).
Proof.
  unfold built, build_internal_order_book. simpl.
  repeat match goal with
         | |- context [Py.bind ?c _] =>
             match c with
             | Py.bind _ _ => fail 1
             | _ => idtac
             end;
             destruct c; cbn [Py.bind]; try reflexivity
         end.
Qed.

Lemma kept_negative (N : Z) (n : nat) :
  (N < 0)%Z -> kept (Some N) n = Z.to_nat (Z.max 0 (Z.of_nat n + N)).
Proof.
  intro HN. unfold kept, slice_stop.
  destruct (Z.eqb_spec N 0); [lia |].
  replace (Z.min N (Z.of_nat n)) with N by lia.
  destruct (Z.ltb_spec N 0); [reflexivity | lia].
Qed.

Lemma depth_of_raises (depth : option Z) (raw : value) (e : exn) :
  depth_of depth raw = Raise e -> e = TypeError.
Proof.
  unfold depth_of.
  destruct depth as [d |]; [destruct (d =? 0)%Z |];
    destruct raw; simpl; congruence.
Qed.

Lemma depth_of_none (depth : option Z) : depth_of depth VNone = Raise TypeError.
Proof.
  unfold depth_of. destruct depth as [d |]; [destruct (d =? 0)%Z |]; reflexivity.
Qed.

(** Four lengths taken in a row, one of them of [None]: [TypeError]. *)
Lemma depths_raise (depth : option Z) (r1 r2 r3 r4 : value) (B : Type)
    (k : Z -> Z -> Z -> Z -> result B) :
  r1 = VNone \/ r2 = VNone \/ r3 = VNone \/ r4 = VNone ->
  (d1 <- depth_of depth r1 ;; d2 <- depth_of depth r2 ;;
   d3 <- depth_of depth r3 ;; d4 <- depth_of depth r4 ;; k d1 d2 d3 d4)
  = Raise TypeError.
Proof.
  intro H.
  destruct (depth_of depth r1) as [d1 | e1] eqn:E1; cbn [Py.bind];
    [| now rewrite (depth_of_raises _ _ _ E1)].
  destruct (depth_of depth r2) as [d2 | e2] eqn:E2; cbn [Py.bind];
    [| now rewrite (depth_of_raises _ _ _ E2)].
  destruct (depth_of depth r3) as [d3 | e3] eqn:E3; cbn [Py.bind];
    [| now rewrite (depth_of_raises _ _ _ E3)].
  destruct (depth_of depth r4) as [d4 | e4] eqn:E4; cbn [Py.bind];
    [| now rewrite (depth_of_raises _ _ _ E4)].
  destruct H as [-> | [-> | [-> | ->]]];
    rewrite depth_of_none in *; discriminate.
Qed.

Lemma side_of_dict_or_none (venue_book : value) (name : string) :
  venue_book = VNone \/ (exists entries, venue_book = VDict entries) ->
  exists raw, side_of venue_book name = Ok raw.
Proof.
  intros [-> | (entries & ->)]; unfold side_of; simpl.
  - eauto.
  - destruct entries as [| kv rest]; [eauto |].
    unfold get. destruct (lookup name (kv :: rest)); eauto.
Qed.

Lemma side_of_missing (entries : list (string * value)) (name : string) :
  entries <> [] ->
  lookup name entries = None ->
  side_of (VDict entries) name = Ok VNone.
Proof.
  intros Hne Hl. unfold side_of. simpl.
  destruct entries as [| kv rest]; [contradiction |].
  unfold get. now rewrite Hl.
Qed.

(** A non-empty object without the key of a side, next to a snapshot
    that is an object or absent: the build raises [TypeError]. *)
Lemma missing_side_build_raises (v : venue) (s : side) (self : t)
    (entries : list (string * value)) :
  Fetcher.snapshot v self = VDict entries ->
  entries <> [] ->
  lookup (name s) entries = None ->
  (Fetcher.snapshot (other v) self = VNone
   \/ exists others, Fetcher.snapshot (other v) self = VDict others) ->
  build_internal_order_book str_to_float self = Raise TypeError.
Proof.
  intros Hsnap Hne Hmissing Hother.
  pose proof (side_of_missing entries (name s) Hne Hmissing) as Hside.
  assert (Hown : forall name, exists raw, side_of (VDict entries) name = Ok raw)
    by (intro name; apply side_of_dict_or_none; right; eauto).
  assert (Hoth : forall name,
             exists raw,
               side_of (Fetcher.snapshot (other v) self) name = Ok raw)
    by (intro name; now apply side_of_dict_or_none).
  unfold build_internal_order_book.
  destruct v; simpl in Hsnap, Hoth; rewrite Hsnap.
  - destruct (Hown "bids"%string) as (r1 & E1).
    destruct (Hoth "bids"%string) as (r2 & E2).
    destruct (Hown "asks"%string) as (r3 & E3).
    destruct (Hoth "asks"%string) as (r4 & E4).
    rewrite E1. cbn [Py.bind]. rewrite E2. cbn [Py.bind].
    rewrite E3. cbn [Py.bind]. rewrite E4. cbn [Py.bind].
    apply depths_raise.
    destruct s; simpl in Hside; [left | right; right; left]; congruence.
  - destruct (Hoth "bids"%string) as (r1 & E1).
    destruct (Hown "bids"%string) as (r2 & E2).
    destruct (Hoth "asks"%string) as (r3 & E3).
    destruct (Hown "asks"%string) as (r4 & E4).
    rewrite E1. cbn [Py.bind]. rewrite E2. cbn [Py.bind].
    rewrite E3. cbn [Py.bind]. rewrite E4. cbn [Py.bind].
    apply depths_raise.
    destruct s; simpl in Hside; [right; left | right; right; right]; congruence.
Qed.

End MergerMore.

(** X7.  In the internal book a build leaves, each side lists the levels
    of Coinbase first and those of Gemini after them. *)
Theorem merged_side_lists_coinbase_first
    (str_to_float : string -> result Q) (self self' : OrderBook.t) :
  OrderBook.build_internal_order_book str_to_float self = Ok self' ->
  exists book : OrderBook.book,
    OrderBook.internal_order_book self' = Some book
    /\ forall s : Merged.side,
         Merged.levels s book
         = Merged.from OrderBook.Coinbase (Merged.levels s book)
           ++ Merged.from OrderBook.Gemini (Merged.levels s book).
Proof.
  intro H.
  destruct (build_parts str_to_float self self' H)
    as (cbb & gmb & cba & gma & Xcbb & Xgmb & Xcba & Xgma & ->).
  eexists. split; [reflexivity |].
  intros []; simpl; rewrite !from_app.
  - rewrite (from_same OrderBook.Coinbase cbb Xcbb),
      (from_other OrderBook.Coinbase gmb Xgmb),
      (from_other OrderBook.Gemini cbb Xcbb),
      (from_same OrderBook.Gemini gmb Xgmb).
    now rewrite app_nil_r.
  - rewrite (from_same OrderBook.Coinbase cba Xcba),
      (from_other OrderBook.Coinbase gma Xgma),
      (from_other OrderBook.Gemini cba Xcba),
      (from_same OrderBook.Gemini gma Xgma).
    now rewrite app_nil_r.
Qed.

Lemma merged_side_lists_coinbase_first_witness :
  exists book : OrderBook.book,
    OrderBook.internal_order_book (Sample.merged None) = Some book
    /\ forall s : Merged.side,
         Merged.levels s book
         = Merged.from OrderBook.Coinbase (Merged.levels s book)
           ++ Merged.from OrderBook.Gemini (Merged.levels s book).
Proof.
  apply (merged_side_lists_coinbase_first Sample.decimal (Sample.fetched None)
           (Sample.merged None)).
  reflexivity.
Defined.

(** X8.  A successful build replaces the internal book and nothing
    else: snapshots, limiters and depth are as before.  The book it
    builds does not depend on the book stored before, so building again
    from the same snapshots returns the same object. *)
Theorem build_replaces_only_the_book
    (str_to_float : string -> result Q) (self self' : OrderBook.t) :
  OrderBook.build_internal_order_book str_to_float self = Ok self' ->
  OrderBook.coinbase_order_book self' = OrderBook.coinbase_order_book self
  /\ OrderBook.gemini_order_book self' = OrderBook.gemini_order_book self
  /\ OrderBook.coinbase_limiter self' = OrderBook.coinbase_limiter self
  /\ OrderBook.gemini_limiter self' = OrderBook.gemini_limiter self
  /\ OrderBook.depth self' = OrderBook.depth self
  /\ OrderBook.build_internal_order_book str_to_float self' = Ok self'.
Proof.
  intro H.
  destruct (build_parts str_to_float self self' H)
    as (cbb & gmb & cba & gma & _ & _ & _ & _ & ->).
  repeat split.
  pose proof (build_ignores_internal str_to_float self
                {| OrderBook.bids := cbb ++ gmb; OrderBook.asks := cba ++ gma |}) as Hsame.
  rewrite H in Hsame. unfold Merged.built in Hsame.
  destruct (OrderBook.build_internal_order_book str_to_float
              (OrderBook.set_internal_order_book
                 {| OrderBook.bids := cbb ++ gmb; OrderBook.asks := cba ++ gma |} self))
    as [again | e] eqn:E; simpl in Hsame; [| discriminate].
  destruct (build_parts str_to_float _ again E)
    as (cbb' & gmb' & cba' & gma' & _ & _ & _ & _ & ->).
  simpl in Hsame. injection Hsame as Hb Ha.
  unfold OrderBook.set_internal_order_book. simpl. now rewrite Hb, Ha.
Qed.

Lemma build_replaces_only_the_book_witness :
  OrderBook.build_internal_order_book Sample.decimal (Sample.merged (Some 2%Z))
  = Ok (Sample.merged (Some 2%Z)).
Proof.
  apply (build_replaces_only_the_book Sample.decimal (Sample.fetched (Some 2%Z))
           (Sample.merged (Some 2%Z))).
  reflexivity.
Defined.

(** X9.  A negative depth [N] does not empty the book: the slice
    [[: N]] drops the last [-N] levels of each venue's side and keeps the
    rest, [max(0, n + N)] of the [n] levels returned, in order. *)
Theorem negative_depth_drops_last_levels
    (str_to_float : string -> result Q) (self self' : OrderBook.t) (N : Z) :
  OrderBook.depth self = Some N ->
  (N < 0)%Z ->
  OrderBook.build_internal_order_book str_to_float self = Ok self' ->
  exists book : OrderBook.book,
    OrderBook.internal_order_book self' = Some book
    /\ forall (v : OrderBook.venue) (s : Merged.side),
         Merged.read (Merged.body str_to_float v)
           (firstn (Z.to_nat
                      (Z.max 0
                         (Z.of_nat (List.length
                                      (Merged.returned (Fetcher.snapshot v self) s)) + N)))
              (Merged.returned (Fetcher.snapshot v self) s))
         = Ok (Merged.from v (Merged.levels s book)).
Proof.
  intros Hdepth HN Hbuild.
  destruct (build_levels str_to_float self self' Hbuild) as (book & Hbook & Hread).
  exists book. split; [exact Hbook |].
  intros v s. specialize (Hread v s).
  now rewrite Hdepth, (kept_negative _ _ HN) in Hread.
Qed.

Lemma negative_depth_drops_last_levels_witness :
  exists self' book,
    OrderBook.build_internal_order_book Sample.decimal (Sample.fetched (Some (-1)%Z))
    = Ok self'
    /\ OrderBook.internal_order_book self' = Some book
    /\ Merged.from OrderBook.Coinbase (Merged.levels Merged.Asks book)
       = [ {| OrderBook.price := 100; OrderBook.size := 1;
              OrderBook.exchange := OrderBook.Coinbase |} ].
Proof.
  eexists.
  destruct (negative_depth_drops_last_levels Sample.decimal
              (Sample.fetched (Some (-1)%Z)) _ (-1)%Z eq_refl eq_refl eq_refl)
    as (book & Hbook & Hread).
  exists book. split; [reflexivity |]. split; [exact Hbook |].
  specialize (Hread OrderBook.Coinbase Merged.Asks).
  remember (Merged.from OrderBook.Coinbase (Merged.levels Merged.Asks book)) as kept_asks.
  vm_compute in Hread. now injection Hread as <-.
Defined.

(** X10.  A snapshot that is an empty JSON object is falsy and is
    treated like an absent one: the build gives the same book, or the
    same exception. *)
Theorem empty_object_snapshot_is_absent
    (str_to_float : string -> result Q) (v : OrderBook.venue) (self : OrderBook.t) :
  Merged.built
    (OrderBook.build_internal_order_book str_to_float
       (Merged.set_snapshot v (VDict []) self))
  = Merged.built
      (OrderBook.build_internal_order_book str_to_float
         (Merged.set_snapshot v VNone self)).
Proof.
  destruct v; unfold Merged.built, OrderBook.build_internal_order_book; simpl;
    repeat match goal with
           | |- context [Py.bind ?c _] =>
               match c with
               | Py.bind _ _ => fail 1
               | _ => idtac
               end;
               destruct c; cbn [Py.bind]; try reflexivity
           end.
Qed.

(** X11.  When the snapshots are JSON objects (or absent) and one of
    them is a non-empty object without the key of a side, ["bids"] or
    ["asks"], the build raises [TypeError]: [get] gives [None] for the
    side and [len(None)] fails. *)
Theorem missing_side_raises_type_error
    (str_to_float : string -> result Q) (v : OrderBook.venue) (s : Merged.side)
    (self : OrderBook.t) (entries : list (string * value)) :
  Fetcher.snapshot v self = VDict entries ->
  entries <> [] ->
  lookup (Merged.name s) entries = None ->
  (Fetcher.snapshot (Merged.other v) self = VNone
   \/ exists others, Fetcher.snapshot (Merged.other v) self = VDict others) ->
  OrderBook.build_internal_order_book str_to_float self = Raise TypeError.
Proof.
  apply missing_side_build_raises.
Qed.

Lemma missing_side_raises_type_error_witness :
  OrderBook.build_internal_order_book Sample.decimal
    (OrderBook.set_gemini_order_book
       (VDict [("message"%string, VStr "maintenance")]) (Sample.fetched None))
  = Raise TypeError.
Proof.
  apply (missing_side_raises_type_error Sample.decimal OrderBook.Gemini Merged.Asks
           (OrderBook.set_gemini_order_book
              (VDict [("message"%string, VStr "maintenance")]) (Sample.fetched None))
           [("message"%string, VStr "maintenance")]).
  - reflexivity.
  - discriminate.
  - reflexivity.
  - right. eexists. reflexivity.
Defined.



(* ----------------------------------------------------------------- *)
(** ** The execution simulator, continued *)

Section ExecutionMore.
Import OrderBook Execution Accounting.







(** Only the last fill can be partial. *)
Lemma take_levels_whole_but_last (lvls : list level) :
  forall acc : tally,
  exists new : list fill,
    fills (take_levels lvls acc) = fills acc ++ new
    /\ but_last new = map whole (firstn (List.length new - 1) lvls).
Proof.
  induction lvls as [| l rest IH]; intro acc; simpl.
  - exists []. rewrite app_nil_r. split; reflexivity.
  - destruct (Qle_bool (remaining acc) 0) eqn:E.
    + exists []. rewrite app_nil_r. split; reflexivity.
    + unfold Py.min. destruct (Qle_bool (size l) (remaining acc)) eqn:Em.
      * match goal with
        | |- context [take_levels rest ?a] => destruct (IH a) as (new & Hf & Hbl)
        end.
        simpl in Hf. exists (whole l :: new). split.
        -- rewrite Hf, <- app_assoc. reflexivity.
        -- unfold but_last in *. destruct new as [| f new']; [reflexivity |].
           cbn [removelast List.length]. simpl in Hbl.
           rewrite Nat.sub_0_r in *. simpl. now rewrite Hbl.
      * rewrite take_levels_stop.
        -- simpl. eexists [_]. split; reflexivity.
        -- simpl. apply Qle_bool_iff. lra.
Qed.


Lemma StronglySorted_firstn {A : Type} (R : A -> A -> Prop) (l : list A) :
  StronglySorted R l -> forall n, StronglySorted R (firstn n l).
Proof.
  induction 1 as [| x l Hl IH Hx]; intros [| n]; simpl; try constructor.
  - apply IH.
  - rewrite Forall_forall in *. intros y Hy. apply Hx.
    rewrite <- (firstn_skipn n l). apply in_or_app. now left.
Qed.

Lemma fills_prices (fs : list fill) (lvls : list level) :
  Forall2 (fun f l => taken_from f l /\ fill_size f <= size l) fs lvls ->
  map fill_price fs = map price lvls.
Proof.
  induction 1 as [| f l fs lvls ((_ & Hp & _) & _) _ IH]; simpl; [reflexivity |].
  now rewrite Hp, IH.
Qed.

Lemma sorted_prices (R : Q -> Q -> Prop) (lvls : list level) :
  StronglySorted (fun a b => R (price a) (price b)) lvls ->
  StronglySorted R (map price lvls).
Proof.
  induction 1 as [| x l Hl IH Hx]; simpl; constructor; [exact IH |].
  rewrite Forall_forall in *. intros q Hq.
  apply in_map_iff in Hq. destruct Hq as (y & <- & Hy). now apply Hx.
Qed.

End ExecutionMore.





(** X15.  Only the last fill of a side can be partial: every fill
    before it takes its level whole, so the fills but the last are the
    first levels of the sorted side, in order, at full size. *)
Theorem only_the_last_fill_is_partial
    (self : OrderBook.t) (book : OrderBook.book) (quantity : Q)
    (r : OrderBook.execution) :
  OrderBook.internal_order_book self = Some book ->
  OrderBook.calculate_execution_prices quantity self = Some r ->
  Accounting.but_last (OrderBook.fills (OrderBook.buy r))
  = map Accounting.whole
      (firstn (List.length (OrderBook.fills (OrderBook.buy r)) - 1)
         (OrderBook.sort_asks (OrderBook.asks book)))
  /\ Accounting.but_last (OrderBook.fills (OrderBook.sell r))
     = map Accounting.whole
         (firstn (List.length (OrderBook.fills (OrderBook.sell r)) - 1)
            (OrderBook.sort_bids (OrderBook.bids book))).
Proof.
  intros Hbook Hr.
  unfold OrderBook.calculate_execution_prices in Hr. rewrite Hbook in Hr.
  injection Hr as <-. simpl.
  split.
  - destruct (take_levels_whole_but_last (OrderBook.sort_asks (OrderBook.asks book))
                {| OrderBook.remaining := quantity;
                   OrderBook.total := 0;
                   OrderBook.fills := [] |}) as (new & Hf & Hbl).
    simpl in Hf. rewrite Hf. exact Hbl.
  - destruct (take_levels_whole_but_last (OrderBook.sort_bids (OrderBook.bids book))
                {| OrderBook.remaining := quantity;
                   OrderBook.total := 0;
                   OrderBook.fills := [] |}) as (new & Hf & Hbl).
    simpl in Hf. rewrite Hf. exact Hbl.
Qed.

Lemma only_the_last_fill_is_partial_witness :
  exists r : OrderBook.execution,
    OrderBook.calculate_execution_prices 2 (Sample.merged None) = Some r
    /\ Accounting.but_last (OrderBook.fills (OrderBook.buy r))
       = [(OrderBook.Coinbase, 1, 100, 1 * 100)].
Proof.
  eexists. split; [reflexivity |].
  destruct (only_the_last_fill_is_partial (Sample.merged None) Sample.book 2 _
              eq_refl eq_refl) as (Hbuy & _).
  rewrite Hbuy. reflexivity.
Defined.





(** X18.  The fills come in price order: prices never go down along
    the buy fills and never go up along the sell fills. *)
Theorem fills_follow_the_price_order
    (self : OrderBook.t) (quantity : Q) (r : OrderBook.execution) :
  OrderBook.calculate_execution_prices quantity self = Some r ->
  StronglySorted Qle (map Execution.fill_price (OrderBook.fills (OrderBook.buy r)))
  /\ StronglySorted (fun a b => b <= a)
       (map Execution.fill_price (OrderBook.fills (OrderBook.sell r))).
Proof.
  unfold OrderBook.calculate_execution_prices.
  destruct (OrderBook.internal_order_book self) as [book |]; [| discriminate].
  intros [= <-]. simpl. split.
  - destruct (take_levels_fills (OrderBook.sort_asks (OrderBook.asks book))
                {| OrderBook.remaining := quantity;
                   OrderBook.total := 0;
                   OrderBook.fills := [] |}) as (new & Hf & Hall).
    simpl in Hf. rewrite Hf, (fills_prices _ _ Hall).
    apply (sorted_prices Qle). apply StronglySorted_firstn.
    apply sort_asks_ascending.
  - destruct (take_levels_fills (OrderBook.sort_bids (OrderBook.bids book))
                {| OrderBook.remaining := quantity;
                   OrderBook.total := 0;
                   OrderBook.fills := [] |}) as (new & Hf & Hall).
    simpl in Hf. rewrite Hf, (fills_prices _ _ Hall).
    apply (sorted_prices (fun a b => b <= a)). apply StronglySorted_firstn.
    apply sort_bids_descending.
Qed.

Lemma fills_follow_the_price_order_witness :
  exists r : OrderBook.execution,
    OrderBook.calculate_execution_prices 10 (Sample.merged None) = Some r
    /\ StronglySorted Qle
         (map Execution.fill_price (OrderBook.fills (OrderBook.buy r))).
Proof.
  eexists. split; [reflexivity |].
  apply (fills_follow_the_price_order (Sample.merged None) 10). reflexivity.
Defined.

(* ----------------------------------------------------------------- *)
(** ** The display *)

Section ConsoleFacts.
Import OrderBook Console.

Lemma range_from_1 (N : Z) :
  range 1 (N + 1) = map (fun k => (1 + Z.of_nat k)%Z) (seq 0 (Z.to_nat N)).
Proof.
  unfold range. now replace (N + 1 - 1)%Z with N by lia.
Qed.

Lemma entry_nth (side : list level) (k : nat) :
  entry side (1 + Z.of_nat k) = nth_error side k.
Proof.
  unfold entry. replace (Z.to_nat (1 + Z.of_nat k - 1)) with k by lia.
  destruct (Z.leb_spec (1 + Z.of_nat k) (Z.of_nat (List.length side)));
    [reflexivity |].
  symmetry. apply nth_error_None. lia.
Qed.

Lemma firstn_succ {A : Type} (l : list A) :
  forall n : nat,
    firstn (S n) l
    = firstn n l ++ match nth_error l n with Some x => [x] | None => [] end.
Proof.
  induction l as [| x l IH]; intros [| n]; simpl; try reflexivity.
  f_equal. apply IH.
Qed.

Lemma firstn_by_index {A : Type} (l : list A) (n : nat) :
  flat_map (fun k => match nth_error l k with Some x => [x] | None => [] end)
    (seq 0 n)
  = firstn n l.
Proof.
  induction n as [| n IH]; [reflexivity |].
  rewrite seq_S, flat_map_app, IH, firstn_succ. simpl. now rewrite app_nil_r.
Qed.

Lemma shown_rows (v : venue) (coinbase_side gemini_side : list level) (ks : list nat) :
  shown v (map (row coinbase_side gemini_side)
             (map (fun k => (1 + Z.of_nat k)%Z) ks))
  = flat_map (fun k =>
                match nth_error (match v with
                                 | Coinbase => coinbase_side
                                 | Gemini => gemini_side
                                 end) k with
                | Some x => [x]
                | None => []
                end) ks.
Proof.
  induction ks as [| k ks IH]; [reflexivity |].
  unfold shown in *. cbn [map flat_map]. rewrite IH. unfold row.
  rewrite !entry_nth. now destruct v.
Qed.

Lemma shown_app (v : venue) (l l' : list line) :
  shown v (l ++ l') = shown v l ++ shown v l'.
Proof. apply flat_map_app. Qed.

(** The lines of a display at depth [N]: per venue, the first [N]
    levels of the bids and then those of the asks. *)
Lemma display_shows (N : Z) (book : book) (v : venue) :
  shown v
    ([BidsHeader]
       ++ map (row (Merged.from Coinbase (bids book)) (Merged.from Gemini (bids book)))
            (range 1 (N + 1))
       ++ [AsksHeader]
       ++ map (row (Merged.from Coinbase (asks book)) (Merged.from Gemini (asks book)))
            (range 1 (N + 1)))
  = firstn (Z.to_nat N) (Merged.from v (bids book))
    ++ firstn (Z.to_nat N) (Merged.from v (asks book)).
Proof.
  rewrite range_from_1, !shown_app, !shown_rows, !firstn_by_index.
  now destruct v.
Qed.

End ConsoleFacts.

(** X19.  With a book built and a depth [N] set, [print_order_books]
    ends normally after two headers and [N] rows per side (none for
    [N <= 0]); the rows show, per venue, the first [N] bids and the first
    [N] asks of that venue in the order of the internal book, and no
    other level. *)
Theorem display_shows_first_levels
    (self : OrderBook.t) (book : OrderBook.book) (N : Z) :
  OrderBook.internal_order_book self = Some book ->
  OrderBook.depth self = Some N ->
  exists lines : list Console.line,
    Console.print_order_books self = (lines, Ok tt)
    /\ List.length lines = (2 + 2 * Z.to_nat N)%nat
    /\ forall v : OrderBook.venue,
         Console.shown v lines
         = firstn (Z.to_nat N) (Merged.from v (OrderBook.bids book))
           ++ firstn (Z.to_nat N) (Merged.from v (OrderBook.asks book)).
Proof.
  intros Hbook Hdepth. unfold Console.print_order_books. rewrite Hbook, Hdepth.
  eexists. split; [reflexivity |]. split.
  - rewrite !length_app, !length_map. unfold range.
    rewrite !length_map, !length_seq. simpl. lia.
  - intro v. apply display_shows.
Qed.

Lemma display_shows_first_levels_witness :
  exists lines : list Console.line,
    Console.print_order_books (Sample.merged (Some 1%Z)) = (lines, Ok tt)
    /\ List.length lines = 4%nat
    /\ Console.shown OrderBook.Coinbase lines
       = [ {| OrderBook.price := 99; OrderBook.size := 1;
              OrderBook.exchange := OrderBook.Coinbase |};
           {| OrderBook.price := 100; OrderBook.size := 1;
              OrderBook.exchange := OrderBook.Coinbase |} ].
Proof.
  destruct (display_shows_first_levels (Sample.merged (Some 1%Z)) Sample.book 1
              eq_refl eq_refl) as (lines & Hp & Hlen & Hshown).
  exists lines. split; [exact Hp |]. split; [exact Hlen |].
  rewrite (Hshown OrderBook.Coinbase). reflexivity.
Defined.

(** X20.  Build and display agree for a depth [N >= 1]: after a
    successful build, [print_order_books] shows every level of the
    internal book, per venue in the book's order, bids first. *)
Theorem display_after_build_shows_whole_book
    (str_to_float : string -> result Q) (self self' : OrderBook.t) (N : Z) :
  OrderBook.depth self = Some N ->
  (0 < N)%Z ->
  OrderBook.build_internal_order_book str_to_float self = Ok self' ->
  exists (book : OrderBook.book) (lines : list Console.line),
    OrderBook.internal_order_book self' = Some book
    /\ Console.print_order_books self' = (lines, Ok tt)
    /\ forall v : OrderBook.venue,
         Console.shown v lines
         = Merged.from v (OrderBook.bids book) ++ Merged.from v (OrderBook.asks book).
Proof.
  intros Hdepth HN Hbuild.
  destruct (build_levels str_to_float self self' Hbuild) as (book & Hbook & Hread).
  destruct (build_parts str_to_float self self' Hbuild)
    as (cbb & gmb & cba & gma & _ & _ & _ & _ & Hself').
  assert (Hdepth' : OrderBook.depth self' = Some N) by (now rewrite Hself').
  exists book. eexists. split; [exact Hbook |].
  unfold Console.print_order_books. rewrite Hbook, Hdepth'.
  split; [reflexivity |].
  intro v. rewrite display_shows.
  pose proof (Hread v Merged.Bids) as Hb. pose proof (Hread v Merged.Asks) as Ha.
  rewrite Hdepth, (kept_positive _ _ HN) in Hb.
  rewrite Hdepth, (kept_positive _ _ HN) in Ha.
  apply read_length in Hb. apply read_length in Ha.
  rewrite length_firstn in Hb, Ha. simpl in Hb, Ha.
  rewrite !firstn_all2 by lia. reflexivity.
Qed.

Lemma display_after_build_shows_whole_book_witness :
  exists (book : OrderBook.book) (lines : list Console.line),
    OrderBook.internal_order_book (Sample.merged (Some 2%Z)) = Some book
    /\ Console.print_order_books (Sample.merged (Some 2%Z)) = (lines, Ok tt)
    /\ forall v : OrderBook.venue,
         Console.shown v lines
         = Merged.from v (OrderBook.bids book) ++ Merged.from v (OrderBook.asks book).
Proof.
  apply (display_after_build_shows_whole_book Sample.decimal
           (Sample.fetched (Some 2%Z)) (Sample.merged (Some 2%Z)) 2);
    reflexivity.
Defined.

(** X21.  With the depth unset, as [__main__] constructs the object,
    the display cannot be used once a book has been built: it prints the
    first header and raises [TypeError] at [self.depth + 1]. *)
Theorem display_raises_when_depth_unset
    (str_to_float : string -> result Q) (self self' : OrderBook.t) :
  OrderBook.depth self = None ->
  OrderBook.build_internal_order_book str_to_float self = Ok self' ->
  Console.print_order_books self' = ([Console.BidsHeader], Raise TypeError).
Proof.
  intros Hdepth Hbuild.
  destruct (build_parts str_to_float self self' Hbuild)
    as (cbb & gmb & cba & gma & _ & _ & _ & _ & ->).
  unfold Console.print_order_books. simpl. now rewrite Hdepth.
Qed.

Lemma display_raises_when_depth_unset_witness :
  Console.print_order_books (Sample.merged None)
  = ([Console.BidsHeader], Raise TypeError).
Proof.
  apply (display_raises_when_depth_unset Sample.decimal (Sample.fetched None)
           (Sample.merged None)); reflexivity.
Defined.

(* ----------------------------------------------------------------- *)
(** ** The printer worker *)

Section PrinterFacts.
Import OrderBook.
Variable str_to_float : string -> result Q.


End PrinterFacts.



(** X23.  One unmergeable snapshot ends the printer worker for good:
    when it finds a non-empty object without ["bids"] or ["asks"] stored
    for a venue (the other snapshot being an object or absent), the
    build raises [TypeError], no figures are produced and the thread
    terminates, whatever later iterations would have found. *)
Theorem printer_dies_on_snapshot_without_side
    (str_to_float : string -> result Q) (qty : Q)
    (v : OrderBook.venue) (s : Merged.side) (entries : list (string * value))
    (coinbase_book gemini_book : value)
    (later : list (value * value)) (ob : OrderBook.t) :
  Fetcher.snapshot v
    (OrderBook.set_gemini_order_book gemini_book
       (OrderBook.set_coinbase_order_book coinbase_book ob)) = VDict entries ->
  entries <> [] ->
  lookup (Merged.name s) entries = None ->
  (Fetcher.snapshot (Merged.other v)
     (OrderBook.set_gemini_order_book gemini_book
        (OrderBook.set_coinbase_order_book coinbase_book ob)) = VNone
   \/ exists others,
        Fetcher.snapshot (Merged.other v)
          (OrderBook.set_gemini_order_book gemini_book
             (OrderBook.set_coinbase_order_book coinbase_book ob)) = VDict others) ->
  printer_worker str_to_float qty ((coinbase_book, gemini_book) :: later) ob
  = ([], Terminated TypeError
           (OrderBook.set_gemini_order_book gemini_book
              (OrderBook.set_coinbase_order_book coinbase_book ob))).
Proof.
  intros Hsnap Hne Hmissing Hother. simpl.
  now rewrite (missing_side_build_raises str_to_float v s _ entries
                 Hsnap Hne Hmissing Hother).
Qed.

Lemma printer_dies_on_snapshot_without_side_witness :
  printer_worker Sample.decimal 10
    [(VDict [("message"%string, VStr "maintenance")], VNone);
     (Sample.coinbase_data, Sample.gemini_data)]
    (OrderBook.init None)
  = ([], Terminated TypeError
           (OrderBook.set_gemini_order_book VNone
              (OrderBook.set_coinbase_order_book
                 (VDict [("message"%string, VStr "maintenance")])
                 (OrderBook.init None)))).
Proof.
  apply (printer_dies_on_snapshot_without_side Sample.decimal 10
           OrderBook.Coinbase Merged.Bids [("message"%string, VStr "maintenance")]).
  - reflexivity.
  - discriminate.
  - reflexivity.
  - left. reflexivity.
Defined.

(* ----------------------------------------------------------------- *)
(** ** Polling a venue *)

Section PollingFacts.
Import OrderBook Fetcher Polling.

(** The calls of a worker send a request exactly when the venue's
    limiter, run over the same clock readings, grants. *)
Lemma calls_follow_limiter (v : venue) (ticks : list tick) :
  forall (ob : t) (i : nat) (o : outcome),
    nth_error (calls v ticks ob) i = Some o ->
    nth_error (fst (RateLimiter.allow_all (map fst ticks) (limiter v ob))) i
    = Some (polled o).
Proof.
  induction ticks as [| [now net] later IH]; intros ob i o Hi.
  - destruct i; discriminate.
  - cbn [calls map fst RateLimiter.allow_all] in *.
    destruct (fetch_cases v now net ob)
      as [[Hd E] | [(Hg & e & _ & E) | (Hg & d & _ & E)]];
      rewrite E in Hi; cbn [ended after] in Hi.
    + apply allow_fst_false in Hd. rewrite Hd.
      destruct i as [| i]; simpl in Hi.
      * injection Hi as <-.
        now destruct (RateLimiter.allow_all (map fst later) (limiter v ob)).
      * specialize (IH ob i o Hi).
        now destruct (RateLimiter.allow_all (map fst later) (limiter v ob)).
    + apply allow_fst_true in Hg. rewrite Hg.
      destruct (RateLimiter.allow_all (map fst later) _) as [rest s2].
      destruct i as [| i]; simpl in Hi.
      * now injection Hi as <-.
      * destruct i; discriminate.
    + apply allow_fst_true in Hg. rewrite Hg.
      destruct i as [| i]; simpl in Hi.
      * injection Hi as <-.
        now destruct (RateLimiter.allow_all (map fst later) _).
      * match type of Hi with
        | nth_error (calls v later ?s) _ = _ => specialize (IH s i o Hi)
        end.
        replace (limiter v _)
          with {| RateLimiter.min_interval := RateLimiter.min_interval (limiter v ob);
                  RateLimiter.last_called := now |} in IH
          by (destruct v; reflexivity).
        now destruct (RateLimiter.allow_all (map fst later) _).
Qed.

End PollingFacts.

(** X24.  A venue is never polled more often than its limiter allows:
    of the fetch calls a worker makes, any two that send a request are
    at least [min_interval] apart on the clock, when [min_interval] is
    positive (it is 2 seconds for both venues). *)
Theorem requests_to_a_venue_are_spaced
    (v : OrderBook.venue) (ticks : list tick) (ob : OrderBook.t)
    (i j : nat) (ti tj : Q) (oi oj : OrderBook.outcome) :
  0 < RateLimiter.min_interval (Fetcher.limiter v ob) ->
  (i < j)%nat ->
  nth_error (map fst ticks) i = Some ti ->
  nth_error (map fst ticks) j = Some tj ->
  nth_error (Polling.calls v ticks ob) i = Some oi ->
  nth_error (Polling.calls v ticks ob) j = Some oj ->
  Polling.polled oi = true ->
  Polling.polled oj = true ->
  RateLimiter.min_interval (Fetcher.limiter v ob) <= tj - ti.
Proof.
  intros Hpos Hij Hti Htj Hoi Hoj Hpi Hpj.
  apply calls_follow_limiter in Hoi. apply calls_follow_limiter in Hoj.
  rewrite Hpi in Hoi. rewrite Hpj in Hoj.
  exact (granted_apart (map fst ticks) (Fetcher.limiter v ob) i j ti tj
           Hpos Hij Hti Htj Hoi Hoj).
Qed.

Lemma requests_to_a_venue_are_spaced_witness :
  RateLimiter.min_interval
    (Fetcher.limiter OrderBook.Coinbase (OrderBook.init None)) <= 7 - 5.
Proof.
  apply (requests_to_a_venue_are_spaced OrderBook.Coinbase
           [(5, Sample.serving Sample.coinbase_data);
            (6, Sample.serving Sample.coinbase_data);
            (7, Sample.serving Sample.coinbase_data)]
           (OrderBook.init None) 0 2 5 7
           (Fetcher.fetch OrderBook.Coinbase 5 (Sample.serving Sample.coinbase_data)
              (OrderBook.init None))
           (Fetcher.fetch OrderBook.Coinbase 7 (Sample.serving Sample.coinbase_data)
              (OrderBook.after
                 (Fetcher.fetch OrderBook.Coinbase 6
                    (Sample.serving Sample.coinbase_data)
                    (OrderBook.after
                       (Fetcher.fetch OrderBook.Coinbase 5
                          (Sample.serving Sample.coinbase_data)
                          (OrderBook.init None)))))));
    try reflexivity.
  lia.
Defined.
